(** * Diferencia: the dispatcher of [core/proxy.go]

    A shallow embedding of the request dispatcher of the Diferencia proxy
    (package [core], file [proxy.go]) and the properties of it that the
    specification states.

    Conventions of the embedding:
    - Go [int] values that are only compared (status codes, the
      [Difference] enumeration) are [Z];
    - Go [string] is [string], [[]byte] is [list Byte.byte] (a nil slice and
      an empty slice are both the empty list);
    - Go [error] is the inductive [error]: either a plain error carrying its
      message, or a pointer to a [DiferenciaError];
    - [http.Header] is a finite map from names to value lists;
    - the package-level [HttpClient] is an instance of the class [Client];
      its state is threaded through every call;
    - every effect of the code on the outside world (an upstream request, a
      call into package [json], an export, a write to the response writer)
      is recorded as an [Event], in program order;
    - calls to package [log] only write to the logger and are left out. *)

From Stdlib Require Import ZArith String List Lia DecimalString.
From Stdlib.Strings Require Import Byte.
From stdpp Require Import base strings gmap list.

Open Scope string_scope.
Open Scope Z_scope.

Abbreviation bytes := (list Byte.byte).
Abbreviation http_Header := (gmap string (list string)).

(** ** Package [net/http]: the constants the code names *)

Module http.
Definition MethodGet : string := "GET".
Definition MethodHead : string := "HEAD".
Definition MethodOptions : string := "OPTIONS".
Definition MethodPost : string := "POST".

Definition StatusOK : Z := 200.
Definition StatusBadRequest : Z := 400.
Definition StatusMethodNotAllowed : Z := 405.
Definition StatusPreconditionFailed : Z := 412.
Definition StatusInternalServerError : Z := 500.
Definition StatusServiceUnavailable : Z := 503.
End http.

(** ** Package [fmt]: the verbs the code uses *)

Module fmt.
(** [%d] of an [int]. *)
Definition d (n : Z) : string := NilEmpty.string_of_int (Z.to_int n).
(** [%t] of a [bool]. *)
Definition t (b : bool) : string := if b then "true" else "false".
End fmt.

(** Indexing a Go array or slice: out of range is a run-time panic, [None]
    here. *)
Definition index {A : Type} (l : list A) (i : Z) : option A :=
  if i <? 0 then None else l !! Z.to_nat i.

(** ** The difference algorithm *)

(** [type Difference int] *)
Definition Difference : Type := Z.

Definition Strict : Difference := 0.
Definition Subset : Difference := 1.
Definition Schema : Difference := 2.

Definition names : list string := ["Strict"; "Subset"; "Schema"].

(** [func (difference Difference) String() string], with the array access
    [names[difference]] kept partial. *)
Definition Difference_String_indexed (difference : Difference) : option string :=
  if (difference <? Strict) || (difference >? Schema) then Some "Unknown"
  else index names difference.

(** The same method as the rest of the code calls it. The default of [nth]
    is never reached, see [Difference_String_indexed_total]. *)
Definition Difference_String (difference : Difference) : string :=
  if (difference <? Strict) || (difference >? Schema) then "Unknown"
  else nth (Z.to_nat difference) names "".

(** Go's [error] interface, as far as this package builds and inspects its
    values. *)
Record DiferenciaError : Type := mkDiferenciaError {
  code : Z;
  message : string
}.

Inductive error : Type :=
| errorString (msg : string)
| errDiferencia (e : DiferenciaError).

(** [func (e *DiferenciaError) Error() string] *)
Definition DiferenciaError_Error (e : DiferenciaError) : string :=
  "with message: " ++ message e ++ ", and code " ++ fmt.d (code e).

(** [err.Error()] *)
Definition Error (err : error) : string :=
  match err with
  | errorString msg => msg
  | errDiferencia e => DiferenciaError_Error e
  end.

(** [func NewDifference(difference string) (Difference, error)] *)
Definition NewDifference (difference : string) : Difference * option error :=
  if String.eqb difference "Strict" then (Strict, None)
  else if String.eqb difference "Subset" then (Subset, None)
  else if String.eqb difference "Schema" then (Schema, None)
  else (-1, Some (errorString ("Cannot find " ++ difference ++ " difference mode"))).

(** ** The configuration object *)

Record DiferenciaConfiguration : Type := mkConfig {
  Port : Z;
  Primary : string;
  Secondary : string;
  Candidate : string;
  StoreResults : string;
  DifferenceMode : Difference;
  NoiseDetection : bool;
  AllowUnsafeOperations : bool
}.

(** [func (conf DiferenciaConfiguration) IsStoreResultsSet() bool] *)
Definition IsStoreResultsSet (conf : DiferenciaConfiguration) : bool :=
  (0 <? Z.of_nat (String.length (StoreResults conf))).

(** ** Requests, responses and the upstream client *)

(** [url.URL], the parts of it an upstream URL is built from. *)
Record URL : Type := mkURL {
  Scheme : string;
  Host : string;
  Path : string;
  RawQuery : string;
  Fragment : string
}.

(** [http.Request] as received from the caller. [ReqHeader] and [ReqBody]
    are its fields [Header] and [Body]. *)
Record Request : Type := mkRequest {
  Method : string;
  RequestURL : URL;
  ReqHeader : http_Header;
  ReqBody : bytes
}.

(** An [io.Reader] by what [ioutil.ReadAll] gets out of it: the bytes read
    and the error that stopped the reading, if any. *)
Record Reader : Type := mkReader {
  data : bytes;
  readErr : option error
}.

Definition ReadAll (body : Reader) : bytes * option error :=
  (data body, readErr body).

(** [http.Response] *)
Record Response : Type := mkResponse {
  Body : Reader;
  StatusCode : Z;
  Header : http_Header
}.

(** The interface [Client] with its one method [MakeRequest], which takes
    the request and the rewritten URL and answers a response or an error.
    An implementation may keep state between calls (the stub of the test
    suite counts them). *)
Class Client (C : Type) : Type := {
  MakeRequest : C -> Request -> string -> (Response + error) * C
}.

(** ** Package [json], as this file calls it *)

(** [json.NoiseOperation] with its methods [Detect] and [Remove], and
    [json.CompareDocuments]. The package is not part of this file; the
    dispatcher is stated over any implementation of it. *)
Class JsonPackage (N : Type) : Type := {
  NoiseOperation_zero : N;
  Detect : N -> bytes -> bytes -> N * option error;
  Remove : N -> bytes -> bytes -> bytes * bytes * option error;
  CompareDocuments : bytes -> bytes -> string -> bool
}.

(** ** Package [exporter], as this file calls it *)

Module exporter.
(** Modelled from the spec: package [exporter] is not part of this file.
    An interaction is the captured (URL, body, status) of one upstream
    call, as [CreateInteraction] receives them. *)
Record Interaction : Type := CreateInteraction {
  FullURL : string;
  Content : bytes;
  Status : Z
}.

(** The zero value [var secondary exporter.Interaction]. *)
Definition zero : Interaction := CreateInteraction "" [] 0.

(** Modelled from the spec: the record [CreateInteractions] builds from
    the primary, the secondary (passed by address), the candidate, the
    mode name and the verdict. *)
Record Interactions : Type := CreateInteractions {
  primary : Interaction;
  secondary : Interaction;
  candidate : Interaction;
  mode : string;
  result : bool
}.
End exporter.

(** ** Effects *)

Inductive Event : Type :=
| EvMakeRequest (url : string) (err : option error)
| EvReadAll (err : option error)
| EvDetect (primary secondary : bytes) (err : option error)
| EvRemove (primary candidate : bytes)
| EvCompareDocuments (candidate primary : bytes) (mode : string)
| EvExportToFile (path : string) (interactions : exporter.Interactions)
| EvWriteHeader (code : Z)
| EvFprintf (format : string).

(** A computation over the state [C] of the HTTP client that also emits
    events. *)
Definition M (C A : Type) : Type := C -> A * C * list Event.

Definition ret {C A : Type} (a : A) : M C A := fun c => (a, c, []).

Definition bind {C A B : Type} (m : M C A) (k : A -> M C B) : M C B :=
  fun c =>
    let '(a, c1, e1) := m c in
    let '(b, c2, e2) := k a c1 in
    (b, c2, (e1 ++ e2)%list).

Definition emit {C : Type} (e : Event) : M C unit := fun c => (tt, c, [e]).

Declare Scope go_scope.
Delimit Scope go_scope with go.
Notation "x <- m ;; k" := (bind m (fun x => k))
  (at level 100, m at next level, right associativity) : go_scope.
Notation "m ;;; k" := (bind m (fun _ => k))
  (at level 100, right associativity) : go_scope.

(** ** The dispatcher *)

(** [func isSafeOperation(method string) bool] *)
Definition isSafeOperation (method : string) : bool :=
  String.eqb method http.MethodGet || String.eqb method http.MethodOptions
  || String.eqb method http.MethodHead.

Section Dispatcher.

Context {C : Type} `{HttpClient : Client C}.
Context {N : Type} `{json : JsonPackage N}.

(** [CreateUrl] rewrites the inbound URL against an upstream base. It
    lives in another file of package [core]. *)
Variable CreateUrl : URL -> string -> string.

(** [var Config *DiferenciaConfiguration]. The dispatcher only reads it. *)
Variable Config : DiferenciaConfiguration.

Local Open Scope go_scope.

(** [HttpClient.MakeRequest(r, url)] *)
Definition HttpClient_MakeRequest (r : Request) (url : string)
  : M C (Response + error) :=
  fun c =>
    let '(resp, c') := MakeRequest c r url in
    (resp, c', [EvMakeRequest url (match resp with inl _ => None | inr err => Some err end)]).

(** [ioutil.ReadAll(resp.Body)] *)
Definition ioutil_ReadAll (body : Reader) : M C (bytes * option error) :=
  emit (EvReadAll (readErr body)) ;;; ret (ReadAll body).

(** [func getContent(r *http.Request, url string)
    ([]byte, int, http.Header, error)] *)
Definition getContent (r : Request) (url : string)
  : M C (bytes * Z * http_Header * option error) :=
  resp <- HttpClient_MakeRequest r url ;;
  match resp with
  | inr err => ret ([], 0, ∅, Some err)
  | inl resp =>
      read <- ioutil_ReadAll (Body resp) ;;
      let '(bodyBytes, err) := read in
      ret (bodyBytes, StatusCode resp, Header resp, err)
  end.

(** [noiseOperation.Detect(primary, secondary)] on a fresh
    [json.NoiseOperation{}] *)
Definition json_Detect (noiseOperation : N) (primary secondary : bytes)
  : M C (N * option error) :=
  let detected := Detect noiseOperation primary secondary in
  emit (EvDetect primary secondary (snd detected)) ;;; ret detected.

(** [noiseOperation.Remove(primary, candidate)] *)
Definition json_Remove (noiseOperation : N) (primary candidate : bytes)
  : M C (bytes * bytes * option error) :=
  emit (EvRemove primary candidate) ;;;
  ret (Remove noiseOperation primary candidate).

(** [json.CompareDocuments(candidate, primary, mode)] *)
Definition json_CompareDocuments (candidate primary : bytes) (mode : string)
  : M C bool :=
  emit (EvCompareDocuments candidate primary mode) ;;;
  ret (CompareDocuments candidate primary mode).

(** [exporter.ExportToFile(path, interactions)] *)
Definition exporter_ExportToFile (path : string)
    (interactions : exporter.Interactions) : M C unit :=
  emit (EvExportToFile path interactions).

(** [func compareResult(candidate, primary []byte,
    candidateStatus, primaryStatus int) bool] *)
Definition compareResult (candidate primary : bytes)
    (candidateStatus primaryStatus : Z) : M C bool :=
  if primaryStatus =? candidateStatus then
    json_CompareDocuments candidate primary
      (Difference_String (DifferenceMode Config))
  else ret false.

Definition newDiferenciaError (code : Z) (message : string) : error :=
  errDiferencia (mkDiferenciaError code message).

(** [func Diferencia(r *http.Request) (bool, error)].

    The body up to the export yields either the [result] or the error of
    an early [return false, err]; the variables [secondaryFullURL],
    [secondaryBodyContent] and [secondaryStatus] declared before the
    noise-detection block keep their zero values, since the block declares
    its own with [:=]. *)
Definition Diferencia (r : Request) : M C (bool * option error) :=
  if negb (AllowUnsafeOperations Config) && negb (isSafeOperation (Method r)) then
    ret (false, Some (newDiferenciaError http.StatusMethodNotAllowed
      ("Unsafe operations are not allowed and " ++ Method r
         ++ " method has been received")))
  else
  let primaryFullURL := CreateUrl (RequestURL r) (Primary Config) in
  got <- getContent r primaryFullURL ;;
  let '(primaryBodyContent, primaryStatus, _, err) := got in
  match err with
  | Some err =>
      ret (false, Some (newDiferenciaError http.StatusServiceUnavailable
        ("Error while connecting to Primary site (" ++ primaryFullURL
           ++ ") with " ++ Error err)))
  | None =>
  let candidateFullURL := CreateUrl (RequestURL r) (Candidate Config) in
  got <- getContent r candidateFullURL ;;
  let '(candidateBodyContent, candidateStatus, _, err) := got in
  match err with
  | Some err =>
      ret (false, Some (newDiferenciaError http.StatusServiceUnavailable
        ("Error while connecting to Candidate site (" ++ candidateFullURL
           ++ ") with " ++ Error err)))
  | None =>
  let secondaryFullURL : string := "" in
  let secondaryBodyContent : bytes := [] in
  let secondaryStatus : Z := 0 in
  outcome <-
    (if NoiseDetection Config then
       let secondaryFullURL := CreateUrl (RequestURL r) (Secondary Config) in
       got <- getContent r secondaryFullURL ;;
       let '(secondaryBodyContent, secondaryStatus, _, err) := got in
       match err with
       | Some err =>
           ret (inr (newDiferenciaError http.StatusServiceUnavailable
             ("Error while connecting to Secondary site (" ++ candidateFullURL
                ++ ") with error " ++ Error err)))
       | None =>
           if primaryStatus =? secondaryStatus then
             detected <- json_Detect NoiseOperation_zero
                           primaryBodyContent secondaryBodyContent ;;
             let '(noiseOperation, err) := detected in
             match err with
             | Some err =>
                 ret (inr (newDiferenciaError http.StatusBadRequest
                   ("Error detecting noise between " ++ primaryFullURL
                      ++ " and " ++ secondaryFullURL ++ ". ("
                      ++ Error err ++ ")")))
             | None =>
                 removed <- json_Remove noiseOperation
                              primaryBodyContent candidateBodyContent ;;
                 let '(primaryWithoutNoise, candidateWithoutNoise, _) := removed in
                 result <- compareResult candidateWithoutNoise primaryWithoutNoise
                             candidateStatus primaryStatus ;;
                 ret (inl result)
             end
           else
             ret (inr (newDiferenciaError http.StatusBadRequest
               ("Status code between " ++ primaryFullURL ++ "("
                  ++ fmt.d primaryStatus ++ ") and " ++ secondaryFullURL ++ "("
                  ++ fmt.d secondaryStatus ++ ") are different")))
       end
     else
       result <- compareResult candidateBodyContent primaryBodyContent
                   candidateStatus primaryStatus ;;
       ret (inl result)) ;;
  match outcome with
  | inr err => ret (false, Some err)
  | inl result =>
      (if IsStoreResultsSet Config then
         let primary := exporter.CreateInteraction
                          primaryFullURL primaryBodyContent primaryStatus in
         let candidate := exporter.CreateInteraction
                            candidateFullURL candidateBodyContent candidateStatus in
         let secondary :=
           if NoiseDetection Config then
             exporter.CreateInteraction
               secondaryFullURL secondaryBodyContent secondaryStatus
           else exporter.zero in
         let interactions := exporter.CreateInteractions primary secondary
               candidate (Difference_String (DifferenceMode Config)) result in
         exporter_ExportToFile (StoreResults Config) interactions
       else ret tt) ;;;
      ret (result, None)
  end
  end
  end.

(** [func diferenciaHandler(w http.ResponseWriter, r *http.Request)].
    The calls on [w] are recorded as events; [fmt.Fprintf(w, s)] is
    recorded with its format string [s]. *)
Definition diferenciaHandler (r : Request) : M C unit :=
  res <- Diferencia r ;;
  let '(result, err) := res in
  (match err with
   | Some err =>
       (match err with
        | errDiferencia de =>
            emit (EvWriteHeader (code de)) ;;;
            emit (EvFprintf (message de))
        | _ => ret tt
        end) ;;;
       emit (EvWriteHeader http.StatusInternalServerError) ;;;
       emit (EvFprintf (Error err))
   | None => ret tt
   end) ;;;
  if result : bool then emit (EvWriteHeader http.StatusOK)
  else emit (EvWriteHeader http.StatusPreconditionFailed).

(** *** What the properties below speak about *)

(** The safety gate lets the request through. *)
Definition passesSafetyGate (r : Request) : bool :=
  AllowUnsafeOperations Config || isSafeOperation (Method r).

Definition primaryURL (r : Request) : string :=
  CreateUrl (RequestURL r) (Primary Config).
Definition candidateURL (r : Request) : string :=
  CreateUrl (RequestURL r) (Candidate Config).
Definition secondaryURL (r : Request) : string :=
  CreateUrl (RequestURL r) (Secondary Config).

(** The upstream call to [url], made in client state [c], answers [body]
    and [status] without error and leaves the client in state [c']. *)
Definition answers (r : Request) (url : string) (c : C)
    (body : bytes) (status : Z) (c' : C) : Prop :=
  exists header evs,
    getContent r url c = ((body, status, header, None), c', evs).

(** The upstream call to [url], made in client state [c], fails: either
    the transport or the reading of the body returns an error. *)
Definition fails (r : Request) (url : string) (c : C) : Prop :=
  exists body status header err c' evs,
    getContent r url c = ((body, status, header, Some err), c', evs).

(** [HttpClient.MakeRequest(r, url)], called in client state [c], returns
    an error: the transport fails. *)
Definition transportFails (r : Request) (url : string) (c : C) : Prop :=
  exists err c', MakeRequest c r url = (inr err, c').

(** [HttpClient.MakeRequest(r, url)], called in client state [c], returns
    a response, and [ioutil.ReadAll] on its body returns an error: the body
    cannot be read. *)
Definition bodyUnreadable (r : Request) (url : string) (c : C) : Prop :=
  exists resp err c',
    MakeRequest c r url = (inl resp, c') /\ (ReadAll (Body resp)).2 = Some err.

(** The call to the upstream at [url] fails, one way or the other. *)
Definition callFails (r : Request) (url : string) (c : C) : Prop :=
  transportFails r url c \/ bodyUnreadable r url c.

(** [HttpClient.MakeRequest(r, url)], called in client state [c], returns
    a response whose body [ioutil.ReadAll] reads without error, and leaves
    the client in state [c']. *)
Definition callSucceeds (r : Request) (url : string) (c c' : C) : Prop :=
  exists resp,
    MakeRequest c r url = (inl resp, c') /\ (ReadAll (Body resp)).2 = None.

(** One of the upstream calls the dispatcher makes for [r] fails: the call
    to the Primary; or, the Primary having answered, the call to the
    Candidate; or, with [NoiseDetection] on and both having answered, the
    call to the Secondary. *)
Inductive UpstreamFails (r : Request) (c : C) : Prop :=
| PrimaryFails :
    callFails r (primaryURL r) c ->
    UpstreamFails r c
| CandidateFails c1 :
    callSucceeds r (primaryURL r) c c1 ->
    callFails r (candidateURL r) c1 ->
    UpstreamFails r c
| SecondaryFails c1 c2 :
    NoiseDetection Config = true ->
    callSucceeds r (primaryURL r) c c1 ->
    callSucceeds r (candidateURL r) c1 c2 ->
    callFails r (secondaryURL r) c2 ->
    UpstreamFails r c.

End Dispatcher.

(** ** Observations on the events of a run *)

Definition isCompareDocuments (e : Event) : bool :=
  match e with EvCompareDocuments _ _ _ => true | _ => false end.

(** The interactions handed to the exporter. *)
Definition exported (evs : list Event) : list exporter.Interactions :=
  omap (fun e => match e with EvExportToFile _ i => Some i | _ => None end) evs.

(** The status codes passed to [w.WriteHeader], in order. *)
Definition headerWrites (evs : list Event) : list Z :=
  omap (fun e => match e with EvWriteHeader code => Some code | _ => None end) evs.

(** The format strings passed to [fmt.Fprintf(w, _)], in order. *)
Definition bodyWrites (evs : list Event) : list string :=
  omap (fun e => match e with EvFprintf s => Some s | _ => None end) evs.

(** [json.CompareDocuments] was called in the run: a body diff was
    computed. *)
Definition bodyDiffComputed (evs : list Event) : Prop :=
  exists candidate primary mode, In (EvCompareDocuments candidate primary mode) evs.

(** What the handler writes to the response writer after the run of the
    dispatcher: for a [DiferenciaError] its code and message, then in any
    error case status 500 and the text of the error, and in every case,
    last, 200 or 412 by the verdict. *)
Definition writes (res : bool * option error) : list Event :=
  (match res.2 with
   | Some err =>
       (match err with
        | errDiferencia de => [EvWriteHeader (code de); EvFprintf (message de)]
        | errorString _ => []
        end)
       ++ [EvWriteHeader http.StatusInternalServerError; EvFprintf (Error err)]
   | None => []
   end)%list
  ++ [EvWriteHeader (if res.1 then http.StatusOK
                     else http.StatusPreconditionFailed)].

(** A client that answers as [HttpClient] does, except that the header of
    every response is replaced by [h c url resp]. *)
Definition withHeaders {C : Type} (HttpClient : Client C)
    (h : C -> string -> Response -> http_Header) : Client C := {|
  MakeRequest c r url :=
    let '(resp, c') := @MakeRequest C HttpClient c r url in
    (match resp with
     | inl resp => inl (mkResponse (Body resp) (StatusCode resp) (h c url resp))
     | inr err => inr err
     end, c')
|}.

(** ** Runtime reconfiguration *)

Module Update.
(** Modelled from the spec: the type [DiferenciaConfigurationUpdate] is
    not part of this file. It is a record of string-valued optional
    fields; as in the test suite, a field left at the empty string is
    absent. The fields are those of the patch that [DiferenciaConfiguration]
    has here. *)
Record DiferenciaConfigurationUpdate : Type := mkUpdate {
  Primary : string;
  Secondary : string;
  Candidate : string;
  Mode : string;
  NoiseDetection : string
}.
End Update.

(** [len(field) > 0] *)
Definition present (field : string) : bool :=
  0 <? Z.of_nat (String.length field).

(** Modelled from the spec: a strict boolean literal, "true" or "false". *)
Definition parseBool (literal : string) : bool + error :=
  if String.eqb literal "true" then inl true
  else if String.eqb literal "false" then inl false
  else inr (errorString ("Cannot parse " ++ literal ++ " as a boolean")).

(** The mode of a patch, through [NewDifference]. *)
Definition parseMode (literal : string) : Difference + error :=
  match NewDifference literal with
  | (_, Some err) => inr err
  | (difference, None) => inl difference
  end.

(** A present field overrides the current value with what it parses to. *)
Definition override {A : Type} (field : string) (parse : string -> A + error)
    (current : A) : A + error :=
  if present field then parse field else inl current.

(** Modelled from the spec: the method [UpdateConfiguration] of
    [DiferenciaConfiguration] is not part of this file. Every present field
    is parsed first; only if all parses succeed are the fields committed,
    and on any parse failure an error is returned and the live
    configuration is left as it was. The result is the live configuration
    after the call and the error returned. *)
Definition UpdateConfiguration (conf : DiferenciaConfiguration)
    (patch : Update.DiferenciaConfigurationUpdate)
  : DiferenciaConfiguration * option error :=
  match override (Update.Mode patch) parseMode (DifferenceMode conf) with
  | inr err => (conf, Some err)
  | inl newMode =>
      match override (Update.NoiseDetection patch) parseBool (NoiseDetection conf) with
      | inr err => (conf, Some err)
      | inl newNoiseDetection =>
          ({| Port := Port conf;
              Primary := if present (Update.Primary patch)
                         then Update.Primary patch else Primary conf;
              Secondary := if present (Update.Secondary patch)
                           then Update.Secondary patch else Secondary conf;
              Candidate := if present (Update.Candidate patch)
                           then Update.Candidate patch else Candidate conf;
              StoreResults := StoreResults conf;
              DifferenceMode := newMode;
              NoiseDetection := newNoiseDetection;
              AllowUnsafeOperations := AllowUnsafeOperations conf |}, None)
      end
  end.

(** The patch has a [Mode] that is none of the three modes. *)
Definition modeRejected (patch : Update.DiferenciaConfigurationUpdate) : Prop :=
  Update.Mode patch <> ""
  /\ ~ In (Update.Mode patch) ["Strict"; "Subset"; "Schema"].

(** The patch has a [NoiseDetection] that is no boolean literal. *)
Definition noiseDetectionRejected
    (patch : Update.DiferenciaConfigurationUpdate) : Prop :=
  Update.NoiseDetection patch <> ""
  /\ ~ In (Update.NoiseDetection patch) ["true"; "false"].

(** [conf'] is [conf] with every present field of [patch] committed and
    every other field as it was. *)
Definition committed (conf : DiferenciaConfiguration)
    (patch : Update.DiferenciaConfigurationUpdate)
    (conf' : DiferenciaConfiguration) : Prop :=
  (Update.Primary patch <> "" -> Primary conf' = Update.Primary patch)
  /\ (Update.Primary patch = "" -> Primary conf' = Primary conf)
  /\ (Update.Secondary patch <> "" -> Secondary conf' = Update.Secondary patch)
  /\ (Update.Secondary patch = "" -> Secondary conf' = Secondary conf)
  /\ (Update.Candidate patch <> "" -> Candidate conf' = Update.Candidate patch)
  /\ (Update.Candidate patch = "" -> Candidate conf' = Candidate conf)
  /\ (Update.Mode patch <> "" ->
      NewDifference (Update.Mode patch) = (DifferenceMode conf', None))
  /\ (Update.Mode patch = "" -> DifferenceMode conf' = DifferenceMode conf)
  /\ (Update.NoiseDetection patch <> "" ->
      Update.NoiseDetection patch = fmt.t (NoiseDetection conf'))
  /\ (Update.NoiseDetection patch = "" -> NoiseDetection conf' = NoiseDetection conf)
  /\ Port conf' = Port conf
  /\ StoreResults conf' = StoreResults conf
  /\ AllowUnsafeOperations conf' = AllowUnsafeOperations conf.

(** ** The routes through a run *)

(** The URLs passed to [HttpClient.MakeRequest], in order. *)
Definition requested (evs : list Event) : list string :=
  omap (fun e => match e with EvMakeRequest url _ => Some url | _ => None end) evs.

(** The documents and mode names passed to [json.CompareDocuments], in
    order. *)
Definition compared (evs : list Event) : list (bytes * bytes * string) :=
  omap (fun e => match e with
                 | EvCompareDocuments candidate primary mode =>
                     Some (candidate, primary, mode)
                 | _ => None
                 end) evs.

(** The record of an upstream call that failed: [MakeRequest] returned an
    error, or the reading of the body did. *)
Definition isUpstreamFailure (e : Event) : bool :=
  match e with
  | EvMakeRequest _ (Some _) | EvReadAll (Some _) => true
  | _ => false
  end.

(** No upstream is requested after the record of a failed call. *)
Fixpoint quietAfterFailure (evs : list Event) : bool :=
  match evs with
  | [] => true
  | e :: evs' =>
      (if isUpstreamFailure e
       then match requested evs' with [] => true | _ :: _ => false end
       else true)
      && quietAfterFailure evs'
  end.

(** A call of [NoiseOperation.Detect] or [NoiseOperation.Remove]. *)
Definition isNoiseCall (e : Event) : bool :=
  match e with EvDetect _ _ _ | EvRemove _ _ => true | _ => false end.

Section Routes.

Context {C : Type} `{HttpClient : Client C}.
Context {N : Type} `{json : JsonPackage N}.
Variable CreateUrl : URL -> string -> string.
Variable Config : DiferenciaConfiguration.

(** What [compareResult] returns and emits. *)
Definition comparison (candidate primary : bytes)
    (candidateStatus primaryStatus : Z) : bool * list Event :=
  if primaryStatus =? candidateStatus then
    (CompareDocuments candidate primary (Difference_String (DifferenceMode Config)),
     [EvCompareDocuments candidate primary
        (Difference_String (DifferenceMode Config))])
  else (false, []).

(** What the export step at the end of [Diferencia] emits. *)
Definition exportEvents (r : Request) (pb : bytes) (ps : Z) (cb : bytes) (cs : Z)
    (result : bool) : list Event :=
  if IsStoreResultsSet Config then
    [EvExportToFile (StoreResults Config)
       (exporter.CreateInteractions
          (exporter.CreateInteraction (primaryURL CreateUrl Config r) pb ps)
          exporter.zero
          (exporter.CreateInteraction (candidateURL CreateUrl Config r) cb cs)
          (Difference_String (DifferenceMode Config)) result)]
  else [].

(** The ways through [Diferencia]: for each [return] of the function, the
    conditions under which it is reached, what is returned, the state the
    client is left in and the events emitted on the way. *)
Inductive Route (r : Request) (c : C) : bool * option error -> C -> list Event -> Prop :=
| RouteRejected msg :
    passesSafetyGate Config r = false ->
    Route r c (false, Some (newDiferenciaError http.StatusMethodNotAllowed msg)) c []
| RoutePrimaryFailed msg pb ps ph err c1 ev1 :
    passesSafetyGate Config r = true ->
    getContent r (primaryURL CreateUrl Config r) c = ((pb, ps, ph, Some err), c1, ev1) ->
    Route r c (false, Some (newDiferenciaError http.StatusServiceUnavailable msg)) c1 ev1
| RouteCandidateFailed msg pb ps ph c1 ev1 cb cs ch err c2 ev2 :
    passesSafetyGate Config r = true ->
    getContent r (primaryURL CreateUrl Config r) c = ((pb, ps, ph, None), c1, ev1) ->
    getContent r (candidateURL CreateUrl Config r) c1 = ((cb, cs, ch, Some err), c2, ev2) ->
    Route r c (false, Some (newDiferenciaError http.StatusServiceUnavailable msg)) c2
         (ev1 ++ ev2)
| RouteCompared pb ps ph c1 ev1 cb cs ch c2 ev2 :
    passesSafetyGate Config r = true ->
    getContent r (primaryURL CreateUrl Config r) c = ((pb, ps, ph, None), c1, ev1) ->
    getContent r (candidateURL CreateUrl Config r) c1 = ((cb, cs, ch, None), c2, ev2) ->
    NoiseDetection Config = false ->
    Route r c ((comparison cb pb cs ps).1, None) c2
         (ev1 ++ ev2 ++ (comparison cb pb cs ps).2
              ++ exportEvents r pb ps cb cs (comparison cb pb cs ps).1)
| RouteSecondaryFailed msg pb ps ph c1 ev1 cb cs ch c2 ev2 sb ss sh err c3 ev3 :
    passesSafetyGate Config r = true ->
    getContent r (primaryURL CreateUrl Config r) c = ((pb, ps, ph, None), c1, ev1) ->
    getContent r (candidateURL CreateUrl Config r) c1 = ((cb, cs, ch, None), c2, ev2) ->
    NoiseDetection Config = true ->
    getContent r (secondaryURL CreateUrl Config r) c2 = ((sb, ss, sh, Some err), c3, ev3) ->
    Route r c (false, Some (newDiferenciaError http.StatusServiceUnavailable msg)) c3
         (ev1 ++ ev2 ++ ev3)
| RouteStatusDiffers msg pb ps ph c1 ev1 cb cs ch c2 ev2 sb ss sh c3 ev3 :
    passesSafetyGate Config r = true ->
    getContent r (primaryURL CreateUrl Config r) c = ((pb, ps, ph, None), c1, ev1) ->
    getContent r (candidateURL CreateUrl Config r) c1 = ((cb, cs, ch, None), c2, ev2) ->
    NoiseDetection Config = true ->
    getContent r (secondaryURL CreateUrl Config r) c2 = ((sb, ss, sh, None), c3, ev3) ->
    ps <> ss ->
    Route r c (false, Some (newDiferenciaError http.StatusBadRequest msg)) c3
         (ev1 ++ ev2 ++ ev3)
| RouteDetectFailed msg pb ps ph c1 ev1 cb cs ch c2 ev2 sb sh c3 ev3 n err :
    passesSafetyGate Config r = true ->
    getContent r (primaryURL CreateUrl Config r) c = ((pb, ps, ph, None), c1, ev1) ->
    getContent r (candidateURL CreateUrl Config r) c1 = ((cb, cs, ch, None), c2, ev2) ->
    NoiseDetection Config = true ->
    getContent r (secondaryURL CreateUrl Config r) c2 = ((sb, ps, sh, None), c3, ev3) ->
    Detect NoiseOperation_zero pb sb = (n, Some err) ->
    Route r c (false, Some (newDiferenciaError http.StatusBadRequest msg)) c3
         (ev1 ++ ev2 ++ ev3 ++ [EvDetect pb sb (Some err)])
| RouteDenoised pb ps ph c1 ev1 cb cs ch c2 ev2 sb sh c3 ev3 n pwn cwn rerr :
    passesSafetyGate Config r = true ->
    getContent r (primaryURL CreateUrl Config r) c = ((pb, ps, ph, None), c1, ev1) ->
    getContent r (candidateURL CreateUrl Config r) c1 = ((cb, cs, ch, None), c2, ev2) ->
    NoiseDetection Config = true ->
    getContent r (secondaryURL CreateUrl Config r) c2 = ((sb, ps, sh, None), c3, ev3) ->
    Detect NoiseOperation_zero pb sb = (n, None) ->
    Remove n pb cb = (pwn, cwn, rerr) ->
    Route r c ((comparison cwn pwn cs ps).1, None) c3
         (ev1 ++ ev2 ++ ev3 ++ [EvDetect pb sb None; EvRemove pb cb]
              ++ (comparison cwn pwn cs ps).2
              ++ exportEvents r pb ps cb cs (comparison cwn pwn cs ps).1).

End Routes.

(** ** Variations of the configuration and of package [json] *)

(** The configuration with another [StoreResults]. *)
Definition withStoreResults (conf : DiferenciaConfiguration) (path : string)
  : DiferenciaConfiguration :=
  {| Port := Port conf;
     Primary := Primary conf;
     Secondary := Secondary conf;
     Candidate := Candidate conf;
     StoreResults := path;
     DifferenceMode := DifferenceMode conf;
     NoiseDetection := NoiseDetection conf;
     AllowUnsafeOperations := AllowUnsafeOperations conf |}.

(** The events that are no export. *)
Definition withoutExports (evs : list Event) : list Event :=
  List.filter (fun e => match e with EvExportToFile _ _ => false | _ => true end) evs.

(** A [json] package that is [json] except that the error [Remove] returns
    is replaced by [e n primary candidate]. *)
Definition withRemoveError {N : Type} (json : JsonPackage N)
    (e : N -> bytes -> bytes -> option error) : JsonPackage N := {|
  NoiseOperation_zero := @NoiseOperation_zero N json;
  Detect := @Detect N json;
  Remove n primary candidate :=
    ((@Remove N json n primary candidate).1, e n primary candidate);
  CompareDocuments := @CompareDocuments N json
|}.

(** ** The stub client of the test suite *)

Module Stub.

(** The element [l[i]] of a slice; [index] names a field below. *)
Definition elem {A : Type} (l : list A) (i : Z) : option A := index l i.

(** [type StubHttpClient struct]. The slice [header] is tested against
    nil, so nil ([None]) and a slice are kept apart. *)
Record StubHttpClient : Type := mkStub {
  header : option (list http_Header);
  content : list string;
  status : list Z;
  index : Z
}.

(** [&StubHttpClient{}] *)
Definition new : StubHttpClient := mkStub None [] [] 0.

(** [func (httpClient *StubHttpClient) MakeRequest(r, url)]. [None] is a
    run-time panic of an index out of range; the error returned is always
    nil. *)
Definition MakeRequest (httpClient : StubHttpClient) (r : Request) (url : string)
  : option (Response * StubHttpClient) :=
  match elem (content httpClient) (index httpClient) with
  | None => None
  | Some text =>
      let buff := mkReader (list_byte_of_string text) None in
      match elem (status httpClient) (index httpClient) with
      | None => None
      | Some code =>
          match header httpClient with
          | Some headers =>
              match elem headers (index httpClient) with
              | None => None
              | Some h =>
                  Some (mkResponse buff code h,
                        mkStub (header httpClient) (content httpClient)
                               (status httpClient) (index httpClient + 1))
              end
          | None =>
              Some (mkResponse buff code ∅,
                    mkStub (header httpClient) (content httpClient)
                           (status httpClient) (index httpClient + 1))
          end
      end
  end.

(** [func recordStatus(httpClient *StubHttpClient, statusCode ...int)] *)
Definition recordStatus (httpClient : StubHttpClient) (statusCode : list Z)
  : StubHttpClient :=
  let status := fold_left (fun status v => status ++ [v])%list statusCode [] in
  mkStub (header httpClient) (content httpClient) status (index httpClient).

(** [func recordHeader(httpClient *StubHttpClient, headers ...http.Header)].
    Appending to the nil slice makes it a slice; with no argument it
    stays nil. *)
Definition recordHeader (httpClient : StubHttpClient) (headers : list http_Header)
  : StubHttpClient :=
  let header :=
    fold_left (fun header v => Some (default [] header ++ [v])%list) headers None in
  mkStub header (content httpClient) (status httpClient) (index httpClient).

Section Files.

(** [ioutil.ReadFile] on the files of the test run. *)
Variable ReadFile : string -> string + error.

(** [func loadFromFile(filePath string) string]. [None]: the test is
    failed with [Fail] and goes no further. *)
Definition loadFromFile (filePath : string) : option string :=
  match ReadFile filePath with
  | inl payload => Some payload
  | inr _ => None
  end.

(** [func recordContent(httpClient *StubHttpClient, contentFiles ...string)] *)
Definition recordContent (httpClient : StubHttpClient) (contentFiles : list string)
  : option StubHttpClient :=
  match
    fold_left (fun content v =>
                 match content, loadFromFile v with
                 | Some content, Some payload => Some (content ++ [payload])%list
                 | _, _ => None
                 end) contentFiles (Some [])
  with
  | Some content =>
      Some (mkStub (header httpClient) content (status httpClient)
                   (index httpClient))
  | None => None
  end.

End Files.

(** [n] calls of [MakeRequest] in a row, with the responses in order. *)
Fixpoint calls (n : nat) (httpClient : StubHttpClient) (r : Request) (url : string)
  : option (list Response * StubHttpClient) :=
  match n with
  | O => Some ([], httpClient)
  | S n' =>
      match MakeRequest httpClient r url with
      | None => None
      | Some (resp, httpClient') =>
          match calls n' httpClient' r url with
          | None => None
          | Some (resps, httpClient'') => Some (resp :: resps, httpClient'')
          end
      end
  end.

(** The response the stub builds from a recorded content and status. *)
Definition response (text : string) (code : Z) : Response :=
  mkResponse (mkReader (list_byte_of_string text) None) code ∅.

End Stub.

(** ** The comparison of headers *)

Module HeaderDiff.











End HeaderDiff.

(** A file system for runs of the stub: one fixture. *)
Definition fixtures (file : string) : string + error :=
  if String.eqb file "test_fixtures/document-a.json" then inl "[1,2]"
  else inr (errorString "no such file").

(** * Test doubles

    Implementations of the interfaces above to run the dispatcher on
    concrete inputs, in the manner of the test suite's [StubHttpClient]. *)

Module Double.

(** Equality of two byte slices, element by element. *)
Fixpoint bytes_eqb (a b : bytes) : bool :=
  match a, b with
  | [], [] => true
  | x :: a', y :: b' => Byte.eqb x y && bytes_eqb a' b'
  | _, _ => false
  end.

(** A client that replays recorded outcomes in order, one per call; once
    they are used up every call fails. *)
#[export] Instance Recorded : Client (list (Response + error)) := {
  MakeRequest c _ _ :=
    match c with
    | [] => (inr (errorString "no recorded response"), [])
    | resp :: c' => (resp, c')
    end
}.

(** A [json] package that finds no noise: [Detect] fails on an empty
    body, which is no JSON document, and succeeds otherwise; [Remove]
    has nothing to remove; [CompareDocuments] compares the bytes. *)
#[export] Instance Bytewise : JsonPackage unit := {
  NoiseOperation_zero := tt;
  Detect _ primary secondary :=
    match primary, secondary with
    | _ :: _, _ :: _ => (tt, None)
    | _, _ => (tt, Some (errorString "unexpected end of JSON input"))
    end;
  Remove _ primary candidate := (primary, candidate, None);
  CompareDocuments candidate primary _ := bytes_eqb candidate primary
}.

(** Upstream base followed by the path of the inbound URL. *)
Definition CreateUrl (u : URL) (base : string) : string := base ++ Path u.

Definition body (s : string) : Reader :=
  mkReader (list_byte_of_string s) None.

Definition respond (status : Z) (s : string) (h : http_Header) : Response + error :=
  inl (mkResponse (body s) status h).

Definition conf (noise unsafe : bool) (store : string) : DiferenciaConfiguration :=
  mkConfig 8080 "http://primary" "http://secondary" "http://candidate"
           store Strict noise unsafe.

Definition request (method : string) : Request :=
  mkRequest method (mkURL "http" "localhost:8080" "/now" "" "") ∅ [].

Definition accept (value : string) : http_Header :=
  {[ "Accept" := [value] ]}.

Definition unreachable : Response + error :=
  inr (errorString "connection refused").

(** A response whose body breaks off after [s]. *)
Definition truncated (status : Z) (s : string) : Response + error :=
  inl (mkResponse (mkReader (list_byte_of_string s)
                            (Some (errorString "unexpected EOF")))
                  status ∅).

End Double.

(** * Properties of the difference codec *)

Lemma Difference_String_indexed_total (d : Difference) :
  Difference_String_indexed d = Some (Difference_String d).
Proof.
  unfold Difference_String_indexed, Difference_String, index, Strict, Schema.
  destruct (d <? 0) eqn:Hlo; simpl; [reflexivity|].
  destruct (d >? 2) eqn:Hhi; simpl; [reflexivity|].
  apply Z.ltb_ge in Hlo. rewrite Z.gtb_ltb in Hhi. apply Z.ltb_ge in Hhi.
  assert (Hd : d = 0 \/ d = 1 \/ d = 2) by lia.
  destruct Hd as [-> | [-> | ->]]; reflexivity.
Qed.

Lemma NewDifference_error_iff (s : string) :
  (exists e, snd (NewDifference s) = Some e) <->
  (s <> "Strict" /\ s <> "Subset" /\ s <> "Schema").
Proof.
  unfold NewDifference.
  destruct (String.eqb s "Strict") eqn:H1;
    [apply String.eqb_eq in H1 | apply String.eqb_neq in H1].
  { simpl; split; [intros [e He]; discriminate | intros (H & _); contradiction]. }
  destruct (String.eqb s "Subset") eqn:H2;
    [apply String.eqb_eq in H2 | apply String.eqb_neq in H2].
  { simpl; split; [intros [e He]; discriminate | intros (_ & H & _); contradiction]. }
  destruct (String.eqb s "Schema") eqn:H3;
    [apply String.eqb_eq in H3 | apply String.eqb_neq in H3].
  { simpl; split; [intros [e He]; discriminate | intros (_ & _ & H); contradiction]. }
  simpl; split; [auto | eauto].
Qed.

Lemma NewDifference_error_iff_outside (s : string) :
  ~ In s ["Strict"; "Subset"; "Schema"] <-> exists e, snd (NewDifference s) = Some e.
Proof.
  rewrite NewDifference_error_iff. cbn [In].
  split; [intros H; repeat split; intros ->; apply H; auto|].
  intros (H1 & H2 & H3) [<- | [<- | [<- | []]]]; congruence.
Qed.

(** C10. The mode codec round-trips and is total: [NewDifference] inverts
    [String] on the three modes without error; every other string is
    rejected with an error; and [String] never indexes [names] out of
    bounds, answering "Unknown" for every value outside [Strict..Schema]. *)
Theorem Difference_codec_roundtrip_total :
  (forall d : Difference, In d [Strict; Subset; Schema] ->
     NewDifference (Difference_String d) = (d, None)) /\
  (forall s : string, ~ In s ["Strict"; "Subset"; "Schema"] ->
     exists e, snd (NewDifference s) = Some e) /\
  (forall d : Difference,
     exists s, Difference_String_indexed d = Some s /\ Difference_String d = s) /\
  (forall d : Difference, d < Strict \/ Schema < d ->
     Difference_String_indexed d = Some "Unknown").
Proof.
  split; [|split; [|split]].
  - intros d Hd. simpl in Hd.
    destruct Hd as [<- | [<- | [<- | []]]]; reflexivity.
  - intros s Hs. apply NewDifference_error_iff_outside. exact Hs.
  - intros d. exists (Difference_String d).
    split; [apply Difference_String_indexed_total | reflexivity].
  - intros d Hd. unfold Difference_String_indexed.
    destruct Hd as [Hd | Hd].
    + apply Z.ltb_lt in Hd. rewrite Hd. reflexivity.
    + apply Z.gtb_lt in Hd. rewrite Hd, orb_true_r. reflexivity.
Qed.


(** * Properties of the reconfiguration *)

Lemma present_true (field : string) : present field = true <-> field <> "".
Proof.
  unfold present. destruct field as [|a field]; cbn [String.length].
  - split; [discriminate | intros H; contradiction].
  - split; [discriminate | intros _; apply Z.ltb_lt; lia].
Qed.

Lemma present_false (field : string) : present field = false <-> field = "".
Proof.
  rewrite <- Bool.not_true_iff_false, present_true.
  destruct (String.eqb_spec field ""); tauto.
Qed.

Lemma parseMode_error (literal : string) :
  ~ In literal ["Strict"; "Subset"; "Schema"] ->
  exists err, parseMode literal = inr err.
Proof.
  intros Hout. apply NewDifference_error_iff_outside in Hout.
  destruct Hout as [err Herr]. unfold parseMode.
  destruct (NewDifference literal) as [d e]. cbn in Herr. subst e. eauto.
Qed.

Lemma parseMode_ok (literal : string) :
  In literal ["Strict"; "Subset"; "Schema"] ->
  exists d, parseMode literal = inl d /\ NewDifference literal = (d, None).
Proof.
  cbn [In]. intros [<- | [<- | [<- | []]]]; eexists; split; reflexivity.
Qed.

Lemma parseBool_error (literal : string) :
  ~ In literal ["true"; "false"] -> exists err, parseBool literal = inr err.
Proof.
  cbn [In]. intros Hout. unfold parseBool.
  destruct (String.eqb_spec literal "true") as [-> | _]; [tauto|].
  destruct (String.eqb_spec literal "false") as [-> | _]; [tauto|].
  eauto.
Qed.

Lemma parseBool_ok (literal : string) :
  In literal ["true"; "false"] ->
  exists b, parseBool literal = inl b /\ literal = fmt.t b.
Proof.
  cbn [In]. intros [<- | [<- | []]]; eexists; split; reflexivity.
Qed.

(** C9. If a present field of the patch does not parse, [UpdateConfiguration]
    returns an error and the live configuration is exactly what it was; if
    every present field parses, there is no error and all of them are
    committed, the other fields staying as they were. *)
Theorem UpdateConfiguration_all_or_nothing
    (conf : DiferenciaConfiguration) (patch : Update.DiferenciaConfigurationUpdate) :
  (modeRejected patch \/ noiseDetectionRejected patch ->
   exists err, UpdateConfiguration conf patch = (conf, Some err))
  /\ (~ modeRejected patch -> ~ noiseDetectionRejected patch ->
      exists conf',
        UpdateConfiguration conf patch = (conf', None)
        /\ committed conf patch conf').
Proof.
  unfold modeRejected, noiseDetectionRejected, UpdateConfiguration, override.
  split.
  - intros [[Hpresent Hout] | [Hpresent Hout]].
    + apply present_true in Hpresent. rewrite Hpresent.
      destruct (parseMode_error _ Hout) as [err ->]. eauto.
    + apply present_true in Hpresent. rewrite Hpresent.
      destruct (parseBool_error _ Hout) as [err ->].
      destruct (if present (Update.Mode patch) then _ else _); eauto.
  - intros Hmode Hnoise.
    assert (Hm : Update.Mode patch = ""
                 \/ (Update.Mode patch <> ""
                     /\ In (Update.Mode patch) ["Strict"; "Subset"; "Schema"])).
    { destruct (String.eqb_spec (Update.Mode patch) ""); [tauto|].
      right. split; [assumption|].
      destruct (In_dec string_dec (Update.Mode patch)
                       ["Strict"; "Subset"; "Schema"]); tauto. }
    assert (Hn : Update.NoiseDetection patch = ""
                 \/ (Update.NoiseDetection patch <> ""
                     /\ In (Update.NoiseDetection patch) ["true"; "false"])).
    { destruct (String.eqb_spec (Update.NoiseDetection patch) ""); [tauto|].
      right. split; [assumption|].
      destruct (In_dec string_dec (Update.NoiseDetection patch)
                       ["true"; "false"]); tauto. }
    clear Hmode Hnoise.
    assert (Hfield : forall field current : string,
      (field <> "" -> (if present field then field else current) = field)
      /\ (field = "" -> (if present field then field else current) = current)).
    { intros field current. split; intros Hf.
      - apply present_true in Hf. rewrite Hf. reflexivity.
      - apply present_false in Hf. rewrite Hf. reflexivity. }
    destruct Hm as [Hm | [Hm Hmin]], Hn as [Hn | [Hn Hnin]].
    + rewrite (proj2 (present_false _) Hm), (proj2 (present_false _) Hn).
      eexists. split; [reflexivity|]. unfold committed; cbn.
      repeat split; try apply Hfield; try contradiction; reflexivity.
    + rewrite (proj2 (present_false _) Hm), (proj2 (present_true _) Hn).
      destruct (parseBool_ok _ Hnin) as (b & -> & Hb).
      eexists. split; [reflexivity|]. unfold committed; cbn.
      repeat split; try apply Hfield; try contradiction; auto.
    + rewrite (proj2 (present_true _) Hm), (proj2 (present_false _) Hn).
      destruct (parseMode_ok _ Hmin) as (d & -> & Hd).
      eexists. split; [reflexivity|]. unfold committed; cbn.
      repeat split; try apply Hfield; try contradiction; auto.
    + rewrite (proj2 (present_true _) Hm), (proj2 (present_true _) Hn).
      destruct (parseMode_ok _ Hmin) as (d & -> & Hd).
      destruct (parseBool_ok _ Hnin) as (b & -> & Hb).
      eexists. split; [reflexivity|]. unfold committed; cbn.
      repeat split; try apply Hfield; try contradiction; auto.
Qed.

(** * Properties of the dispatcher *)

Section DispatcherFacts.

Context {C : Type} `{HttpClient : Client C}.
Context {N : Type} `{json : JsonPackage N}.
Variable CreateUrl : URL -> string -> string.
Variable Config : DiferenciaConfiguration.

Lemma gate_closed (r : Request) :
  negb (AllowUnsafeOperations Config) && negb (isSafeOperation (Method r))
  = negb (passesSafetyGate Config r).
Proof.
  unfold passesSafetyGate.
  destruct (AllowUnsafeOperations Config), (isSafeOperation (Method r)); reflexivity.
Qed.

Lemma isSafeOperation_false (method : string) :
  method <> http.MethodGet -> method <> http.MethodOptions ->
  method <> http.MethodHead -> isSafeOperation method = false.
Proof.
  intros Hg Ho Hh. unfold isSafeOperation.
  apply String.eqb_neq in Hg, Ho, Hh. rewrite Hg, Ho, Hh. reflexivity.
Qed.

(** C1. With [AllowUnsafeOperations] false, a request whose method is
    none of GET, OPTIONS and HEAD gets the verdict false and a
    [DiferenciaError] with code 405; the client is left in the state it
    was in and no event is emitted, so no upstream was contacted. *)
Theorem Diferencia_unsafe_method_not_allowed (r : Request) (c : C) :
  AllowUnsafeOperations Config = false ->
  Method r <> http.MethodGet ->
  Method r <> http.MethodOptions ->
  Method r <> http.MethodHead ->
  exists msg,
    Diferencia CreateUrl Config r c
    = ((false, Some (newDiferenciaError http.StatusMethodNotAllowed msg)), c, []).
Proof.
  intros Hallow Hg Ho Hh. unfold Diferencia.
  rewrite Hallow, (isSafeOperation_false _ Hg Ho Hh). simpl.
  eexists. reflexivity.
Qed.

Lemma bind_run {A B : Type} (m : M C A) (k : A -> M C B) c a c1 e1 :
  m c = (a, c1, e1) ->
  bind m k c = (let '(b, c2, e2) := k a c1 in (b, c2, (e1 ++ e2)%list)).
Proof. intros Hm. unfold bind. rewrite Hm. reflexivity. Qed.

(** Past the safety gate, the dispatcher starts with the Primary call. *)
Ltac through_gate Hgate :=
  unfold Diferencia; rewrite gate_closed, Hgate; cbn [negb]; cbv zeta.

(** Run the next upstream call with the equation [H] of its outcome. *)
Ltac upstream H :=
  rewrite (bind_run _ _ _ _ _ _ H); cbv beta iota.

Lemma Diferencia_primary_fails (r : Request) (c : C) :
  passesSafetyGate Config r = true ->
  fails r (primaryURL CreateUrl Config r) c ->
  exists msg,
    fst (fst (Diferencia CreateUrl Config r c))
    = (false, Some (newDiferenciaError http.StatusServiceUnavailable msg)).
Proof.
  intros Hgate (b & s & h & err & c' & evs & H).
  unfold primaryURL in H. through_gate Hgate. upstream H.
  eexists. reflexivity.
Qed.

Lemma Diferencia_candidate_fails (r : Request) (c c1 : C) pb ps :
  passesSafetyGate Config r = true ->
  answers r (primaryURL CreateUrl Config r) c pb ps c1 ->
  fails r (candidateURL CreateUrl Config r) c1 ->
  exists msg,
    fst (fst (Diferencia CreateUrl Config r c))
    = (false, Some (newDiferenciaError http.StatusServiceUnavailable msg)).
Proof.
  intros Hgate (ph & ev1 & Hp) (b & s & h & err & c' & evs & Hc).
  unfold primaryURL in Hp. unfold candidateURL in Hc.
  through_gate Hgate. upstream Hp. upstream Hc.
  eexists. reflexivity.
Qed.

Lemma Diferencia_secondary_fails (r : Request) (c c1 c2 : C) pb ps cb cs :
  passesSafetyGate Config r = true ->
  NoiseDetection Config = true ->
  answers r (primaryURL CreateUrl Config r) c pb ps c1 ->
  answers r (candidateURL CreateUrl Config r) c1 cb cs c2 ->
  fails r (secondaryURL CreateUrl Config r) c2 ->
  exists msg,
    fst (fst (Diferencia CreateUrl Config r c))
    = (false, Some (newDiferenciaError http.StatusServiceUnavailable msg)).
Proof.
  intros Hgate Hnoise (ph & ev1 & Hp) (ch & ev2 & Hc)
         (b & s & h & err & c' & evs & Hs).
  unfold primaryURL in Hp. unfold candidateURL in Hc. unfold secondaryURL in Hs.
  through_gate Hgate. upstream Hp. upstream Hc.
  rewrite Hnoise. unfold bind at 1. upstream Hs.
  eexists. reflexivity.
Qed.

(** A failing call, as the client and the reader of the body have it, is
    a failing [getContent]. *)
Lemma callFails_fails (r : Request) (url : string) (c : C) :
  callFails r url c -> fails r url c.
Proof.
  unfold fails, getContent, HttpClient_MakeRequest, ioutil_ReadAll, bind, emit, ret.
  intros [(err & c' & Hcall) | (resp & err & c' & Hcall & Hread)];
    rewrite Hcall; cbn.
  - repeat eexists.
  - cbn in Hread. rewrite Hread. repeat eexists.
Qed.

(** A successful call is a [getContent] that answers the body and the
    status code of the response. *)
Lemma callSucceeds_answers (r : Request) (url : string) (c c' : C) :
  callSucceeds r url c c' -> exists body status, answers r url c body status c'.
Proof.
  unfold answers, getContent, HttpClient_MakeRequest, ioutil_ReadAll, bind, emit, ret.
  intros (resp & Hcall & Hread). rewrite Hcall. cbn.
  cbn in Hread. rewrite Hread. repeat eexists.
Qed.

(** C5. Once the request is past the safety gate, if the call to the
    Primary or to the Candidate fails ([MakeRequest] returns an error, or
    it returns a response and reading its body returns an error), or, with
    [NoiseDetection] on, the call to the Secondary fails so, the verdict is
    false and the error is a [DiferenciaError] with code 503. *)
Theorem Diferencia_upstream_failure_unavailable (r : Request) (c : C) :
  passesSafetyGate Config r = true ->
  UpstreamFails CreateUrl Config r c ->
  exists msg,
    (Diferencia CreateUrl Config r c).1.1
    = (false, Some (newDiferenciaError http.StatusServiceUnavailable msg)).
Proof.
  intros Hgate [Hp | c1 Hp Hc | c1 c2 Hnoise Hp Hc Hs].
  - apply Diferencia_primary_fails; [assumption | apply callFails_fails; assumption].
  - destruct (callSucceeds_answers _ _ _ _ Hp) as (pb & ps & Hp').
    eapply Diferencia_candidate_fails;
      [assumption | exact Hp' | apply callFails_fails; assumption].
  - destruct (callSucceeds_answers _ _ _ _ Hp) as (pb & ps & Hp').
    destruct (callSucceeds_answers _ _ _ _ Hc) as (cb & cs & Hc').
    eapply Diferencia_secondary_fails;
      [assumption | assumption | exact Hp' | exact Hc'
      | apply callFails_fails; assumption].
Qed.

(** An upstream call emits its request and, when the transport
    succeeded, the reading of the body; nothing else. *)
Lemma getContent_events (r : Request) (url : string) (c : C) :
  let '(got, _, evs) := getContent r url c in
  (evs = [EvMakeRequest url (snd got)] /\ is_Some (snd got)) \/
  evs = [EvMakeRequest url None; EvReadAll (snd got)].
Proof.
  unfold getContent, bind, HttpClient_MakeRequest.
  destruct (MakeRequest c r url) as [[resp | err] c']; cbn.
  - right. reflexivity.
  - left. split; [reflexivity | eexists; reflexivity].
Qed.

Lemma getContent_no_compare (r : Request) (url : string) (c : C) got c' evs :
  getContent r url c = (got, c', evs) ->
  existsb isCompareDocuments evs = false.
Proof.
  intros H. pose proof (getContent_events r url c) as He. rewrite H in He.
  destruct He as [[-> _] | ->]; reflexivity.
Qed.

Lemma getContent_no_export (r : Request) (url : string) (c : C) got c' evs :
  getContent r url c = (got, c', evs) ->
  exported evs = [].
Proof.
  intros H. pose proof (getContent_events r url c) as He. rewrite H in He.
  destruct He as [[-> _] | ->]; reflexivity.
Qed.

(** C6. With [NoiseDetection] on and the three upstream calls answered,
    if the status codes of Primary and Secondary differ, or the noise
    detection on their bodies returns an error, the verdict is false, the
    error is a [DiferenciaError] with code 400, and
    [json.CompareDocuments] was not called. *)
Theorem Diferencia_noise_precondition_bad_request
    (r : Request) (c c1 c2 c3 : C) pb ps cb cs sb ss :
  passesSafetyGate Config r = true ->
  NoiseDetection Config = true ->
  answers r (primaryURL CreateUrl Config r) c pb ps c1 ->
  answers r (candidateURL CreateUrl Config r) c1 cb cs c2 ->
  answers r (secondaryURL CreateUrl Config r) c2 sb ss c3 ->
  ps <> ss \/ is_Some (snd (Detect NoiseOperation_zero pb sb)) ->
  let '(res, _, evs) := Diferencia CreateUrl Config r c in
  (exists msg, res = (false, Some (newDiferenciaError http.StatusBadRequest msg)))
  /\ existsb isCompareDocuments evs = false.
Proof.
  intros Hgate Hnoise (ph & ev1 & Hp) (ch & ev2 & Hc) (sh & ev3 & Hs) Hbad.
  pose proof (getContent_no_compare _ _ _ _ _ _ Hp) as Hn1.
  pose proof (getContent_no_compare _ _ _ _ _ _ Hc) as Hn2.
  pose proof (getContent_no_compare _ _ _ _ _ _ Hs) as Hn3.
  unfold primaryURL in Hp. unfold candidateURL in Hc. unfold secondaryURL in Hs.
  through_gate Hgate. upstream Hp. upstream Hc.
  rewrite Hnoise. unfold bind at 1. upstream Hs.
  destruct (ps =? ss) eqn:Hstatus.
  - destruct Hbad as [Hne | [err Herr]];
      [apply Z.eqb_eq in Hstatus; contradiction|].
    unfold json_Detect. cbv [bind emit ret]. cbv beta iota zeta.
    destruct (Detect NoiseOperation_zero pb sb) as [n derr].
    simpl in Herr. subst derr. cbv beta iota.
    split; [eexists; reflexivity|].
    rewrite !existsb_app, Hn1, Hn2, Hn3. reflexivity.
  - cbv [bind emit ret]. cbv beta iota.
    split; [eexists; reflexivity|].
    rewrite !existsb_app, Hn1, Hn2, Hn3. reflexivity.
Qed.

(** Unfold the calls into packages [json] and [exporter] and the monad,
    leaving the events of the run as a list. *)
Ltac run_rest :=
  cbv [bind emit ret json_Detect json_Remove json_CompareDocuments
       exporter_ExportToFile];
  cbv beta iota zeta.

(** Run the next opaque call with its equation [H]. *)
Ltac step H := rewrite H; cbv beta iota zeta.

(** Close a goal about the result and the events of a finished run,
    with what is known of the events of the upstream calls. *)
Ltac close :=
  cbv beta iota zeta; rewrite ?existsb_app;
  repeat match goal with
         | H : existsb _ _ = false |- _ => rewrite H
         end;
  repeat split; first [reflexivity | intros; discriminate].

Lemma compareResult_status_mismatch (cand prim : bytes) (cs ps : Z) (c : C) :
  ps <> cs -> compareResult Config cand prim cs ps c = (false, c, []).
Proof.
  intros Hne. unfold compareResult.
  apply Z.eqb_neq in Hne. rewrite Hne. reflexivity.
Qed.

Lemma compareResult_same_status (cand prim : bytes) (st : Z) (c : C) :
  compareResult Config cand prim st st c
  = (CompareDocuments cand prim (Difference_String (DifferenceMode Config)), c,
     [EvCompareDocuments cand prim (Difference_String (DifferenceMode Config))]).
Proof. unfold compareResult. rewrite Z.eqb_refl. reflexivity. Qed.

(** C2, as the code has it. When Primary and Candidate answer with
    different status codes the verdict is false and
    [json.CompareDocuments] is not called: no body diff is computed.
    With [NoiseDetection] off the run ends without error. *)
Theorem Diferencia_status_mismatch_skips_body
    (r : Request) (c c1 c2 : C) pb ps cb cs :
  passesSafetyGate Config r = true ->
  answers r (primaryURL CreateUrl Config r) c pb ps c1 ->
  answers r (candidateURL CreateUrl Config r) c1 cb cs c2 ->
  ps <> cs ->
  let '(res, _, evs) := Diferencia CreateUrl Config r c in
  fst res = false
  /\ existsb isCompareDocuments evs = false
  /\ (NoiseDetection Config = false -> snd res = None).
Proof.
  intros Hgate (ph & ev1 & Hp) (ch & ev2 & Hc) Hne.
  pose proof (getContent_no_compare _ _ _ _ _ _ Hp) as Hn1.
  pose proof (getContent_no_compare _ _ _ _ _ _ Hc) as Hn2.
  unfold primaryURL in Hp. unfold candidateURL in Hc.
  through_gate Hgate. run_rest. step Hp. step Hc.
  destruct (NoiseDetection Config) eqn:Hnoise.
  - destruct (getContent r (CreateUrl (RequestURL r) (Secondary Config)) c2)
      as [[[[[sb ss] sh] serr] c3] ev3] eqn:Hs.
    pose proof (getContent_no_compare _ _ _ _ _ _ Hs) as Hn3.
    cbv beta iota zeta.
    destruct serr as [serr|]; [close|].
    destruct (ps =? ss); [|close].
    destruct (Detect NoiseOperation_zero pb sb) as [n [derr|]];
      [close|].
    cbv beta iota zeta.
    destruct (Remove n pb cb) as [[pwn cwn] rerr].
    step (compareResult_status_mismatch cwn pwn cs ps c3 Hne).
    destruct (IsStoreResultsSet Config); close.
  - step (compareResult_status_mismatch cb pb cs ps c2 Hne).
    destruct (IsStoreResultsSet Config); close.
Qed.

(** C4, as the code has it. When Primary and Candidate answer with the
    same bytes and the same status code, the verdict is true and there is
    no error, whatever the difference mode, provided that with
    [NoiseDetection] on the Secondary answers with the status code of the
    Primary and the noise detection succeeds. Package [json] is taken to
    accept a document compared with itself and to remove noise from equal
    documents alike. *)
Theorem Diferencia_identical_responses_equal
    (r : Request) (c c1 c2 : C) (body : bytes) (status : Z) :
  (forall doc mode, CompareDocuments doc doc mode = true) ->
  (forall n doc, (Remove n doc doc).1.1 = (Remove n doc doc).1.2) ->
  passesSafetyGate Config r = true ->
  answers r (primaryURL CreateUrl Config r) c body status c1 ->
  answers r (candidateURL CreateUrl Config r) c1 body status c2 ->
  (NoiseDetection Config = true ->
   exists sb c3,
     answers r (secondaryURL CreateUrl Config r) c2 sb status c3
     /\ (Detect NoiseOperation_zero body sb).2 = None) ->
  (Diferencia CreateUrl Config r c).1.1 = (true, None).
Proof.
  intros Hrefl Hremove Hgate (ph & ev1 & Hp) (ch & ev2 & Hc) Hsecondary.
  unfold primaryURL in Hp. unfold candidateURL in Hc.
  through_gate Hgate. run_rest. step Hp. step Hc.
  destruct (NoiseDetection Config) eqn:Hnoise.
  - destruct (Hsecondary eq_refl) as (sb & c3 & (sh & ev3 & Hs) & Hdetect).
    unfold secondaryURL in Hs. step Hs. rewrite Z.eqb_refl.
    destruct (Detect NoiseOperation_zero body sb) as [n derr].
    simpl in Hdetect. subst derr. cbv beta iota zeta.
    specialize (Hremove n body).
    destruct (Remove n body body) as [[pwn cwn] rerr].
    simpl in Hremove. subst cwn.
    step (compareResult_same_status pwn pwn status c3). rewrite Hrefl.
    destruct (IsStoreResultsSet Config); reflexivity.
  - step (compareResult_same_status body body status c2). rewrite Hrefl.
    destruct (IsStoreResultsSet Config); reflexivity.
Qed.

Lemma exported_app (evs evs' : list Event) :
  exported (evs ++ evs') = (exported evs ++ exported evs')%list.
Proof. apply omap_app. Qed.

Lemma compareResult_no_export (cand prim : bytes) (cs ps : Z) (c : C) res c' evs :
  compareResult Config cand prim cs ps c = (res, c', evs) ->
  exported evs = [].
Proof.
  unfold compareResult, json_CompareDocuments. run_rest.
  destruct (ps =? cs); intros [= _ _ <-]; reflexivity.
Qed.

(** Close a goal about what a finished run exported, with what is known
    of the exports of its calls. *)
Ltac exports :=
  cbv beta iota zeta; cbn [snd]; rewrite ?exported_app;
  repeat match goal with
         | H : exported _ = [] |- _ => rewrite H
         end;
  repeat constructor.

(** The secondary interaction of everything handed to the exporter is
    the zero interaction: an empty URL, no content and status 0. *)
Lemma Diferencia_exports_zero_secondary (r : Request) (c : C) :
  Forall (fun i => exporter.secondary i = exporter.zero)
         (exported (Diferencia CreateUrl Config r c).2).
Proof.
  unfold Diferencia.
  destruct (negb (AllowUnsafeOperations Config)
            && negb (isSafeOperation (Method r))); [constructor|].
  run_rest.
  destruct (getContent r (CreateUrl (RequestURL r) (Primary Config)) c)
    as [[[[[pb ps] ph] perr] c1] ev1] eqn:Hp.
  pose proof (getContent_no_export _ _ _ _ _ _ Hp) as Hx1.
  destruct perr as [perr|]; [exports|]. cbv beta iota zeta.
  destruct (getContent r (CreateUrl (RequestURL r) (Candidate Config)) c1)
    as [[[[[cb cs] ch] cerr] c2] ev2] eqn:Hc.
  pose proof (getContent_no_export _ _ _ _ _ _ Hc) as Hx2.
  destruct cerr as [cerr|]; [exports|]. cbv beta iota zeta.
  destruct (NoiseDetection Config) eqn:Hnoise.
  - destruct (getContent r (CreateUrl (RequestURL r) (Secondary Config)) c2)
      as [[[[[sb ss] sh] serr] c3] ev3] eqn:Hs.
    pose proof (getContent_no_export _ _ _ _ _ _ Hs) as Hx3.
    destruct serr as [serr|]; [exports|]. cbv beta iota zeta.
    destruct (ps =? ss); [|exports].
    destruct (Detect NoiseOperation_zero pb sb) as [n [derr|]]; [exports|].
    cbv beta iota zeta.
    destruct (Remove n pb cb) as [[pwn cwn] rerr].
    destruct (compareResult Config cwn pwn cs ps c3) as [[res c4] ev4] eqn:Hcmp.
    pose proof (compareResult_no_export _ _ _ _ _ _ _ _ Hcmp) as Hx4.
    destruct (IsStoreResultsSet Config); exports.
  - destruct (compareResult Config cb pb cs ps c2) as [[res c4] ev4] eqn:Hcmp.
    pose proof (compareResult_no_export _ _ _ _ _ _ _ _ Hcmp) as Hx4.
    destruct (IsStoreResultsSet Config); exports.
Qed.

(** Replacing the response headers changes the header [getContent]
    returns and nothing else. *)
Lemma getContent_withHeaders
    (h : C -> string -> Response -> http_Header)
    (r : Request) (url : string) (c : C) :
  exists header,
    @getContent C (withHeaders HttpClient h) r url c
    = (let '(body, status, _, err, c', evs) := getContent r url c in
       (body, status, header, err, c', evs)).
Proof.
  unfold getContent, HttpClient_MakeRequest, ioutil_ReadAll. run_rest.
  cbn [MakeRequest withHeaders].
  destruct (MakeRequest c r url) as [[resp | err] c'].
  - eexists. reflexivity.
  - exists ∅. reflexivity.
Qed.

(** The dispatcher of [proxy.go] discards the header that [getContent]
    returns: whatever the headers of the upstream responses are replaced
    with, the verdict, the error, the state of the client and the events
    of the run are the same. It computes no header diff and its
    configuration has no switch for one. *)
Theorem Diferencia_ignores_response_headers
    (h : C -> string -> Response -> http_Header) (r : Request) (c : C) :
  @Diferencia C (withHeaders HttpClient h) N json CreateUrl Config r c
  = Diferencia CreateUrl Config r c.
Proof.
  unfold Diferencia.
  destruct (negb (AllowUnsafeOperations Config)
            && negb (isSafeOperation (Method r))); [reflexivity|].
  run_rest.
  destruct (getContent_withHeaders h r
              (CreateUrl (RequestURL r) (Primary Config)) c) as [ph' ->].
  destruct (getContent r (CreateUrl (RequestURL r) (Primary Config)) c)
    as [[[[[pb ps] ph] perr] c1] ev1].
  cbv beta iota zeta.
  destruct perr as [perr|]; [reflexivity|].
  destruct (getContent_withHeaders h r
              (CreateUrl (RequestURL r) (Candidate Config)) c1) as [ch' ->].
  destruct (getContent r (CreateUrl (RequestURL r) (Candidate Config)) c1)
    as [[[[[cb cs] ch] cerr] c2] ev2].
  cbv beta iota zeta.
  destruct cerr as [cerr|]; [reflexivity|].
  destruct (NoiseDetection Config); [|reflexivity].
  destruct (getContent_withHeaders h r
              (CreateUrl (RequestURL r) (Secondary Config)) c2) as [sh' ->].
  destruct (getContent r (CreateUrl (RequestURL r) (Secondary Config)) c2)
    as [[[[[sb ss] sh] serr] c3] ev3].
  cbv beta iota zeta.
  destruct serr as [serr|]; reflexivity.
Qed.

Lemma diferenciaHandler_writes (r : Request) (c : C) :
  diferenciaHandler CreateUrl Config r c
  = (let '(res, c', evs) := Diferencia CreateUrl Config r c in
     (tt, c', (evs ++ writes res)%list)).
Proof.
  unfold diferenciaHandler, writes. run_rest.
  destruct (Diferencia CreateUrl Config r c) as [[[result err] c'] evs].
  destruct err as [[msg | de]|], result; reflexivity.
Qed.

End DispatcherFacts.

(** * The dispatcher on concrete runs *)

Section Runs.

Import Double.

Lemma bytes_eqb_refl (doc : bytes) : bytes_eqb doc doc = true.
Proof.
  induction doc as [|x doc IH]; [reflexivity|].
  cbn [bytes_eqb]. rewrite IH, (byte_dec_lb (eq_refl x)). reflexivity.
Qed.

Lemma Diferencia_unsafe_method_not_allowed_run :
  exists msg,
    Diferencia CreateUrl (conf false false "") (request "POST")
               [respond 200 "[1,2]" ∅; respond 200 "[1,2]" ∅]
    = ((false, Some (newDiferenciaError http.StatusMethodNotAllowed msg)),
       [respond 200 "[1,2]" ∅; respond 200 "[1,2]" ∅], []).
Proof.
  apply Diferencia_unsafe_method_not_allowed;
    [reflexivity | discriminate | discriminate | discriminate].
Defined.

Lemma Diferencia_upstream_failure_unavailable_run :
  exists msg,
    (Diferencia CreateUrl (conf false false "") (request "GET")
                [respond 200 "[1,2]" ∅; truncated 200 "[1,"]).1.1
    = (false, Some (newDiferenciaError http.StatusServiceUnavailable msg)).
Proof.
  apply Diferencia_upstream_failure_unavailable; [reflexivity|].
  eapply CandidateFails.
  - eexists. split; reflexivity.
  - right. eexists _, _, _. split; reflexivity.
Defined.

(** The same with a Primary that cannot be reached: the Candidate is not
    asked. *)
Lemma Diferencia_primary_unreachable_run :
  Diferencia CreateUrl (conf false false "") (request "GET")
             [unreachable; respond 200 "[1,2]" ∅]
  = ((false,
      Some (newDiferenciaError http.StatusServiceUnavailable
              "Error while connecting to Primary site (http://primary/now) with connection refused")),
     [respond 200 "[1,2]" ∅],
     [EvMakeRequest "http://primary/now" (Some (errorString "connection refused"))]).
Proof. reflexivity. Qed.

Lemma Diferencia_noise_precondition_bad_request_run :
  let '(res, _, evs) :=
    Diferencia CreateUrl (conf true false "") (request "GET")
               [respond 200 "[1,2]" ∅; respond 200 "[1,2]" ∅;
                respond 500 "[1,2]" ∅] in
  (exists msg, res = (false, Some (newDiferenciaError http.StatusBadRequest msg)))
  /\ existsb isCompareDocuments evs = false.
Proof.
  eapply (Diferencia_noise_precondition_bad_request
            CreateUrl (conf true false "") (request "GET")
            _ _ _ _ _ 200 _ 200 _ 500);
    [reflexivity | reflexivity | | | | left; discriminate];
    unfold answers; repeat eexists.
Defined.

Lemma Diferencia_status_mismatch_skips_body_run :
  let '(res, _, evs) :=
    Diferencia CreateUrl (conf false false "") (request "GET")
               [respond 200 "[1,2]" ∅; respond 201 "[1,2]" ∅] in
  res.1 = false
  /\ existsb isCompareDocuments evs = false
  /\ (NoiseDetection (conf false false "") = false -> res.2 = None).
Proof.
  eapply (Diferencia_status_mismatch_skips_body
            CreateUrl (conf false false "") (request "GET") _ _ _ _ 200 _ 201);
    [reflexivity | | | discriminate];
    unfold answers; repeat eexists.
Defined.

(** C2 as stated fails: Primary answers 200 and Candidate 201, both
    successfully, and the run ends with the verdict false and no error,
    yet no body diff was computed. *)
Lemma Diferencia_status_mismatch_no_body_diff :
  (Diferencia CreateUrl (conf false false "") (request "GET")
              [respond 200 "[1,2]" ∅; respond 201 "[1,3]" ∅]).1.1
  = (false, None)
  /\ ~ bodyDiffComputed
       (Diferencia CreateUrl (conf false false "") (request "GET")
                   [respond 200 "[1,2]" ∅; respond 201 "[1,3]" ∅]).2.
Proof.
  split; [reflexivity|].
  intros (cand & prim & mode & Hin). vm_compute in Hin.
  repeat destruct Hin as [Hin | Hin]; try discriminate Hin. exact Hin.
Qed.

(** In [proxy.go] a difference in the headers does not reach the verdict:
    the two upstreams answer with the same body and status but with
    different [Accept] headers, and the verdict is true. *)
Lemma Diferencia_header_difference_verdict_true :
  accept "text/html" <> accept "text/plain"
  /\ (Diferencia CreateUrl (conf false false "") (request "GET")
                 [respond 200 "[1,2]" (accept "text/html");
                  respond 200 "[1,2]" (accept "text/plain")]).1.1
     = (true, None).
Proof.
  split; [|reflexivity].
  intros Heq. apply (f_equal (fun m : http_Header => m !! "Accept")) in Heq.
  vm_compute in Heq. discriminate Heq.
Qed.

Lemma Diferencia_identical_responses_equal_run :
  (Diferencia CreateUrl (conf true false "") (request "GET")
              [respond 200 "[1,2]" ∅; respond 200 "[1,2]" ∅;
               respond 200 "[1,3]" ∅]).1.1
  = (true, None).
Proof.
  eapply (Diferencia_identical_responses_equal
            CreateUrl (conf true false "") (request "GET")
            _ _ _ (list_byte_of_string "[1,2]") 200);
    [intros doc mode; apply bytes_eqb_refl
    | intros n doc; reflexivity
    | reflexivity
    | unfold answers; repeat eexists
    | unfold answers; repeat eexists
    | intros _; exists (list_byte_of_string "[1,3]"), [];
      split; [unfold answers; repeat eexists | reflexivity]].
Defined.

(** C4 as stated fails: Primary and Candidate answer with the same body
    and status 200, [NoiseDetection] is on and the Secondary answers 500;
    the verdict is false, with an error of code 400. *)
Lemma Diferencia_identical_responses_noise_rejected :
  (Diferencia CreateUrl (conf true false "") (request "GET")
              [respond 200 "[1,2]" ∅; respond 200 "[1,2]" ∅;
               respond 500 "[1,2]" ∅]).1.1
  = (false,
     Some (newDiferenciaError http.StatusBadRequest
             "Status code between http://primary/now(200) and http://secondary/now(500) are different")).
Proof. reflexivity. Qed.

(** C7. With [StoreResults] set and [NoiseDetection] on, the Secondary is
    called at its URL and answers status 200 with a body, and the run
    reaches the verdict true; the interactions handed to the exporter
    hold an empty URL, no content and status 0 for the secondary. *)
Theorem Diferencia_exports_empty_secondary :
  let run :=
    Diferencia CreateUrl (conf true false "out.json") (request "GET")
               [respond 200 "[1,2]" ∅; respond 200 "[1,2]" ∅;
                respond 200 "[1,3]" ∅] in
  run.1.1 = (true, None)
  /\ In (EvMakeRequest "http://secondary/now" None) run.2
  /\ exported run.2
     = [exporter.CreateInteractions
          (exporter.CreateInteraction
             "http://primary/now" (list_byte_of_string "[1,2]") 200)
          (exporter.CreateInteraction "" [] 0)
          (exporter.CreateInteraction
             "http://candidate/now" (list_byte_of_string "[1,2]") 200)
          "Strict" true].
Proof.
  cbv zeta. split; [reflexivity|]. split; [|reflexivity].
  vm_compute. tauto.
Qed.

(** C8. For a POST with [AllowUnsafeOperations] off the handler writes
    three status codes, 405, then 500, then 412, and two pieces of body:
    the message of the error and then the full text of the error. *)
Theorem diferenciaHandler_writes_three_statuses :
  let evs :=
    (diferenciaHandler CreateUrl (conf false false "") (request "POST")
                       [respond 200 "[1,2]" ∅; respond 200 "[1,2]" ∅]).2 in
  headerWrites evs
  = [http.StatusMethodNotAllowed; http.StatusInternalServerError;
     http.StatusPreconditionFailed]
  /\ bodyWrites evs
     = ["Unsafe operations are not allowed and POST method has been received";
        "with message: Unsafe operations are not allowed and POST method has been received, and code 405"].
Proof. split; reflexivity. Qed.

Lemma UpdateConfiguration_all_or_nothing_run :
  (exists err,
     UpdateConfiguration (conf false false "") (Update.mkUpdate "" "" "" "incorrect" "")
     = (conf false false "", Some err))
  /\ (exists conf',
        UpdateConfiguration (conf false false "")
          (Update.mkUpdate "http://localhost" "" "" "Subset" "true")
        = (conf', None)
        /\ committed (conf false false "")
             (Update.mkUpdate "http://localhost" "" "" "Subset" "true") conf').
Proof.
  split.
  - apply (UpdateConfiguration_all_or_nothing (conf false false "")
             (Update.mkUpdate "" "" "" "incorrect" "")).
    left. split; [discriminate|]. cbn [In Update.Mode].
    intros [H | [H | [H | []]]]; discriminate H.
  - apply (UpdateConfiguration_all_or_nothing (conf false false "")
             (Update.mkUpdate "http://localhost" "" "" "Subset" "true")).
    + intros [_ Hout]. apply Hout. cbn. auto.
    + intros [_ Hout]. apply Hout. cbn. auto.
Defined.

Lemma Difference_codec_roundtrip_total_run :
  NewDifference (Difference_String Subset) = (Subset, None)
  /\ (exists e, snd (NewDifference "incorrect") = Some e)
  /\ Difference_String_indexed 7 = Some "Unknown".
Proof.
  destruct Difference_codec_roundtrip_total as (Hround & Hreject & _ & Hunknown).
  split; [apply Hround; cbn; auto|].
  split; [apply Hreject; cbn; intros [H | [H | [H | []]]]; discriminate H|].
  apply Hunknown. right. reflexivity.
Defined.

End Runs.

(** * Every run takes one of the routes *)

Section RouteFacts.

Context {C : Type} `{HttpClient : Client C}.
Context {N : Type} `{json : JsonPackage N}.
Variable CreateUrl : URL -> string -> string.
Variable Config : DiferenciaConfiguration.

Lemma Route_eq (r : Request) (c : C) res res' c' evs evs' :
  Route CreateUrl Config r c res c' evs ->
  res = res' -> evs = evs' ->
  Route CreateUrl Config r c res' c' evs'.
Proof. intros HR -> ->. exact HR. Qed.

(** Unfold the monad and the calls into the other packages. *)
Ltac unfold_run :=
  cbv [bind emit ret json_Detect json_Remove json_CompareDocuments
       exporter_ExportToFile];
  cbv beta iota zeta.

(** Conclude with the route [R], up to the bracketing of the events. *)
Ltac route R :=
  cbv beta iota zeta; cbn [fst snd];
  eapply Route_eq;
    [eapply R; eassumption
    | unfold comparison; rewrite ?Z.eqb_refl; try reflexivity
    | unfold comparison, exportEvents, primaryURL, candidateURL;
      rewrite ?Z.eqb_refl; cbn [fst snd];
      rewrite ?app_nil_r, <- ?app_assoc; cbn [app]; try reflexivity].

Lemma Diferencia_route (r : Request) (c : C) :
  Route CreateUrl Config r c
        (Diferencia CreateUrl Config r c).1.1
        (Diferencia CreateUrl Config r c).1.2
        (Diferencia CreateUrl Config r c).2.
Proof.
  destruct (passesSafetyGate Config r) eqn:Hgate.
  2:{ unfold Diferencia. rewrite gate_closed, Hgate. cbn.
      apply RouteRejected. exact Hgate. }
  unfold Diferencia. rewrite gate_closed, Hgate. cbn [negb]. unfold_run.
  destruct (getContent r (CreateUrl (RequestURL r) (Primary Config)) c)
    as [[[[[pb ps] ph] perr] c1] ev1] eqn:Hp.
  destruct perr as [perr|]; [route RoutePrimaryFailed|]. cbv beta iota zeta.
  destruct (getContent r (CreateUrl (RequestURL r) (Candidate Config)) c1)
    as [[[[[cb cs] ch] cerr] c2] ev2] eqn:Hc.
  destruct cerr as [cerr|]; [route RouteCandidateFailed|]. cbv beta iota zeta.
  destruct (NoiseDetection Config) eqn:Hnoise.
  - destruct (getContent r (CreateUrl (RequestURL r) (Secondary Config)) c2)
      as [[[[[sb ss] sh] serr] c3] ev3] eqn:Hs.
    destruct serr as [serr|]; [route RouteSecondaryFailed|]. cbv beta iota zeta.
    destruct (ps =? ss) eqn:Hstatus.
    2:{ apply Z.eqb_neq in Hstatus. route RouteStatusDiffers. }
    apply Z.eqb_eq in Hstatus. subst ss.
    destruct (Detect NoiseOperation_zero pb sb) as [n [derr|]] eqn:Hdetect;
      [route RouteDetectFailed|].
    cbv beta iota zeta.
    destruct (Remove n pb cb) as [[pwn cwn] rerr] eqn:Hremove.
    unfold compareResult, json_CompareDocuments. unfold_run.
    destruct (ps =? cs) eqn:Hcmp;
      destruct (IsStoreResultsSet Config) eqn:Hstore;
      cbv beta iota zeta; cbn [fst snd];
      (eapply Route_eq; [eapply RouteDenoised; eassumption | |]);
      unfold comparison, exportEvents, primaryURL, candidateURL;
      rewrite Hcmp, ?Hstore; cbn [fst snd];
      rewrite ?app_nil_r, <- ?app_assoc; reflexivity.
  - unfold compareResult, json_CompareDocuments. unfold_run.
    destruct (ps =? cs) eqn:Hcmp;
      destruct (IsStoreResultsSet Config) eqn:Hstore;
      cbv beta iota zeta; cbn [fst snd];
      (eapply Route_eq; [eapply RouteCompared; eassumption | |]);
      unfold comparison, exportEvents, primaryURL, candidateURL;
      rewrite Hcmp, ?Hstore; cbn [fst snd];
      rewrite ?app_nil_r, <- ?app_assoc; reflexivity.
Qed.

End RouteFacts.

(** * What every run keeps to *)

Lemma isSafeOperation_true (method : string) :
  isSafeOperation method = true
  <-> In method [http.MethodGet; http.MethodOptions; http.MethodHead].
Proof.
  unfold isSafeOperation. rewrite !Bool.orb_true_iff, !String.eqb_eq.
  cbn [In]. intuition congruence.
Qed.

Lemma quietAfterFailure_spec (evs : list Event) :
  quietAfterFailure evs = true ->
  forall pre e post,
    evs = (pre ++ e :: post)%list ->
    isUpstreamFailure e = true ->
    requested post = [].
Proof.
  intros Hquiet pre. revert evs Hquiet.
  induction pre as [|x pre IH]; intros evs Hquiet e post -> Hfail;
    cbn [app quietAfterFailure] in Hquiet;
    apply andb_prop in Hquiet; destruct Hquiet as [Hhere Hrest].
  - rewrite Hfail in Hhere. destruct (requested post); [reflexivity | discriminate].
  - eapply IH; [exact Hrest | reflexivity | exact Hfail].
Qed.

Section RunLaws.

Context {C : Type} `{HttpClient : Client C}.
Context {N : Type} `{json : JsonPackage N}.
Variable CreateUrl : URL -> string -> string.
Variable Config : DiferenciaConfiguration.

(** Take the run of [Diferencia] on [r] and [c] apart by its route. *)
Ltac by_route r c :=
  let HR := fresh "HR" in
  pose proof (Diferencia_route CreateUrl Config r c) as HR;
  destruct (Diferencia CreateUrl Config r c) as [[[?verdict ?err] ?c'] ?evs];
  cbn [fst snd] in *;
  inversion HR; subst; clear HR.

(** Replace the events of the upstream call of equation [H] by what they
    are. *)
Ltac shape H :=
  match type of H with
  | getContent ?r ?url ?c = _ =>
      let X := fresh in
      pose proof (getContent_events r url c) as X;
      rewrite H in X; cbn [snd] in X;
      destruct X as [[-> [? [=]]] | ->]
  end.

Ltac shapes :=
  repeat match goal with
         | H : getContent _ _ _ = (_, _, ?evs) |- _ => is_var evs; shape H
         end.

(** Decide the comparison and the export of a finished run. *)
Ltac settle :=
  unfold comparison, exportEvents in *;
  try match goal with
      | H : NoiseDetection Config = _ |- _ => rewrite ?H
      end;
  repeat match goal with
         | |- context [if ?b then _ else _] => destruct b eqn:?
         | H : context [if ?b then _ else _] |- _ => destruct b eqn:?
         end.

(** X1. Whenever [Diferencia] returns an error the verdict is false and
    the error is a [DiferenciaError] whose code is 405, 503 or 400. *)
Theorem Diferencia_error_is_DiferenciaError (r : Request) (c : C) (err : error) :
  (Diferencia CreateUrl Config r c).1.1.2 = Some err ->
  (Diferencia CreateUrl Config r c).1.1.1 = false
  /\ exists code msg,
       err = newDiferenciaError code msg
       /\ In code [http.StatusMethodNotAllowed; http.StatusServiceUnavailable;
                   http.StatusBadRequest].
Proof.
  by_route r c; intros [= <-]; (split; [reflexivity|]);
    eexists _, _; (split; [reflexivity|]); cbn; auto.
Qed.

(** X2. [Diferencia] answers with code 405 exactly when
    [AllowUnsafeOperations] is off and the method is none of GET, OPTIONS
    and HEAD. *)
Theorem Diferencia_method_not_allowed_iff (r : Request) (c : C) :
  (exists msg,
     (Diferencia CreateUrl Config r c).1.1.2
     = Some (newDiferenciaError http.StatusMethodNotAllowed msg))
  <-> AllowUnsafeOperations Config = false
      /\ ~ In (Method r) [http.MethodGet; http.MethodOptions; http.MethodHead].
Proof.
  rewrite <- isSafeOperation_true, Bool.not_true_iff_false.
  assert (Hgate : passesSafetyGate Config r = false
                  <-> AllowUnsafeOperations Config = false
                      /\ isSafeOperation (Method r) = false)
    by (unfold passesSafetyGate; apply Bool.orb_false_iff).
  rewrite <- Hgate. clear Hgate.
  by_route r c; split;
    try (intros [msg' [=]]); try congruence; try assumption;
    intros _; eexists; reflexivity.
Qed.

(** X3. The upstreams are requested in the order Primary, Candidate,
    Secondary, each at most once, the Secondary only with [NoiseDetection]
    on; a run that ends without error has requested every upstream it is
    configured to; and after a call that failed (in the transport or in
    the reading of the body) no upstream is requested any more. *)
Theorem Diferencia_requests_in_order_until_failure (r : Request) (c : C) :
  requested (Diferencia CreateUrl Config r c).2
    `prefix_of` ([primaryURL CreateUrl Config r; candidateURL CreateUrl Config r]
                   ++ (if NoiseDetection Config
                       then [secondaryURL CreateUrl Config r] else []))%list
  /\ ((Diferencia CreateUrl Config r c).1.1.2 = None ->
      requested (Diferencia CreateUrl Config r c).2
      = ([primaryURL CreateUrl Config r; candidateURL CreateUrl Config r]
           ++ (if NoiseDetection Config
               then [secondaryURL CreateUrl Config r] else []))%list)
  /\ (forall pre e post,
        (Diferencia CreateUrl Config r c).2 = (pre ++ e :: post)%list ->
        isUpstreamFailure e = true ->
        requested post = []).
Proof.
  by_route r c; shapes; settle;
    (split; [eexists; cbn; reflexivity|]);
    (split; [intros Hnone; try discriminate Hnone; reflexivity|]);
    apply quietAfterFailure_spec; reflexivity.
Qed.

(** X4. Nothing is handed to the exporter by a run that ends with an
    error, nor by any run when [StoreResults] is empty. *)
Theorem Diferencia_no_export (r : Request) (c : C) :
  (Diferencia CreateUrl Config r c).1.1.2 <> None \/ StoreResults Config = "" ->
  exported (Diferencia CreateUrl Config r c).2 = [].
Proof.
  intros Hwhy.
  assert (Hstore : StoreResults Config = "" -> IsStoreResultsSet Config = false)
    by (unfold IsStoreResultsSet; intros ->; reflexivity).
  by_route r c; shapes; settle; try reflexivity;
    destruct Hwhy as [Herr | Hempty]; try (contradiction Herr; reflexivity);
    apply Hstore in Hempty; congruence.
Qed.

(** X5. With [StoreResults] set, a run that ends without error hands the
    exporter exactly one record: the Primary and Candidate interactions
    with the URLs called and the bodies and status codes as received (not
    the bodies with the noise removed), the name of the mode and the
    verdict returned. *)
Theorem Diferencia_exports_once
    (r : Request) (c c1 c2 : C) pb ps cb cs :
  StoreResults Config <> "" ->
  answers r (primaryURL CreateUrl Config r) c pb ps c1 ->
  answers r (candidateURL CreateUrl Config r) c1 cb cs c2 ->
  (Diferencia CreateUrl Config r c).1.1.2 = None ->
  exported (Diferencia CreateUrl Config r c).2
  = [exporter.CreateInteractions
       (exporter.CreateInteraction (primaryURL CreateUrl Config r) pb ps)
       exporter.zero
       (exporter.CreateInteraction (candidateURL CreateUrl Config r) cb cs)
       (Difference_String (DifferenceMode Config))
       (Diferencia CreateUrl Config r c).1.1.1].
Proof.
  intros Hstore (ph & ev1 & Hp) (ch & ev2 & Hc).
  assert (Hset : IsStoreResultsSet Config = true).
  { unfold IsStoreResultsSet. destruct (StoreResults Config);
      [contradiction | cbn [String.length]; apply Z.ltb_lt; lia]. }
  by_route r c; intros [=];
    repeat match goal with
           | H : getContent ?r ?url ?c = _, H' : getContent ?r ?url ?c = _ |- _ =>
               rewrite H in H'; injection H' as; subst
           end;
    shapes; settle; try congruence; reflexivity.
Qed.

(** X6. A true verdict is only returned, without error, after exactly one
    call of [json.CompareDocuments], made under the name of the configured
    mode, that answered true. *)
Theorem Diferencia_true_verdict_compared (r : Request) (c : C) :
  (Diferencia CreateUrl Config r c).1.1.1 = true ->
  (Diferencia CreateUrl Config r c).1.1.2 = None
  /\ exists cand prim,
       compared (Diferencia CreateUrl Config r c).2
       = [(cand, prim, Difference_String (DifferenceMode Config))]
       /\ CompareDocuments cand prim (Difference_String (DifferenceMode Config))
          = true.
Proof.
  by_route r c; intros Htrue; try discriminate Htrue;
    (split; [reflexivity|]); shapes; settle; try discriminate Htrue;
    eexists _, _; (split; [reflexivity | exact Htrue]).
Qed.

(** X7. With [NoiseDetection] off and both upstreams answering, the run
    ends without error; the verdict is false when the status codes differ
    and otherwise what [json.CompareDocuments] answers on the Candidate
    body and the Primary body as received; [Detect] and [Remove] are not
    called. *)
Theorem Diferencia_plain_comparison
    (r : Request) (c c1 c2 : C) pb ps cb cs :
  passesSafetyGate Config r = true ->
  NoiseDetection Config = false ->
  answers r (primaryURL CreateUrl Config r) c pb ps c1 ->
  answers r (candidateURL CreateUrl Config r) c1 cb cs c2 ->
  (Diferencia CreateUrl Config r c).1
  = ((if ps =? cs
      then CompareDocuments cb pb (Difference_String (DifferenceMode Config))
      else false, None), c2)
  /\ existsb isNoiseCall (Diferencia CreateUrl Config r c).2 = false.
Proof.
  intros Hgate Hnoise (ph & ev1 & Hp) (ch & ev2 & Hc).
  by_route r c; try congruence;
    repeat match goal with
           | H : getContent ?r ?url ?c = _, H' : getContent ?r ?url ?c = _ |- _ =>
               rewrite H in H'; try discriminate H'; injection H' as; subst
           end;
    shapes; settle; split; reflexivity.
Qed.

(** X8. With [NoiseDetection] on, the three upstreams answering, Primary
    and Secondary with the same status code, and [Detect] succeeding on the
    Primary and Secondary bodies, the run ends without error; the verdict
    is false when the Candidate status differs and otherwise what
    [json.CompareDocuments] answers on the two documents [Remove] returned
    for the Primary and Candidate bodies, candidate first; the calls into
    package [json] are [Detect], [Remove] and the comparison, in this
    order. *)
Theorem Diferencia_denoised_comparison
    (r : Request) (c c1 c2 c3 : C) pb ps cb cs sb n pwn cwn rerr :
  passesSafetyGate Config r = true ->
  NoiseDetection Config = true ->
  answers r (primaryURL CreateUrl Config r) c pb ps c1 ->
  answers r (candidateURL CreateUrl Config r) c1 cb cs c2 ->
  answers r (secondaryURL CreateUrl Config r) c2 sb ps c3 ->
  Detect NoiseOperation_zero pb sb = (n, None) ->
  Remove n pb cb = (pwn, cwn, rerr) ->
  (Diferencia CreateUrl Config r c).1
  = ((if ps =? cs
      then CompareDocuments cwn pwn (Difference_String (DifferenceMode Config))
      else false, None), c3)
  /\ List.filter (fun e => isNoiseCall e || isCompareDocuments e)
            (Diferencia CreateUrl Config r c).2
     = ([EvDetect pb sb None; EvRemove pb cb]
          ++ (if ps =? cs
              then [EvCompareDocuments cwn pwn
                      (Difference_String (DifferenceMode Config))]
              else []))%list.
Proof.
  intros Hgate Hnoise (ph & ev1 & Hp) (ch & ev2 & Hc) (sh & ev3 & Hs) Hd Hr.
  by_route r c; try congruence;
    repeat match goal with
           | H : getContent ?r ?url ?c = _, H' : getContent ?r ?url ?c = _ |- _ =>
               rewrite H in H'; try discriminate H'; injection H' as; subst
           end;
    try contradiction; try congruence.
  match goal with
  | H : Detect _ _ _ = _, H' : Detect _ _ _ = _ |- _ =>
      rewrite H in H'; injection H' as; subst
  end.
  match goal with
  | H : Remove _ _ _ = _, H' : Remove _ _ _ = _ |- _ =>
      rewrite H in H'; injection H' as; subst
  end.
  shapes; settle; split; reflexivity.
Qed.

(** X9. The handler leaves the client as the dispatcher left it and
    calls the response writer by the outcome of the dispatcher: for a
    verdict without error one [WriteHeader], with 200 (true) or 412
    (false), and no [fmt.Fprintf]; for an error, which is always a
    [DiferenciaError], three [WriteHeader], with its code first, then 500
    and 412, and two [fmt.Fprintf] whose format strings are its message
    and then the full text of the error. What [fmt.Fprintf] writes for a
    format string is not part of the statement. *)
Theorem diferenciaHandler_writes_by_outcome (r : Request) (c : C) :
  (diferenciaHandler CreateUrl Config r c).1.2
  = (Diferencia CreateUrl Config r c).1.2
  /\ match (Diferencia CreateUrl Config r c).1.1 with
     | (verdict, None) =>
         headerWrites (diferenciaHandler CreateUrl Config r c).2
         = [if verdict then http.StatusOK else http.StatusPreconditionFailed]
         /\ bodyWrites (diferenciaHandler CreateUrl Config r c).2 = []
     | (_, Some err) =>
         exists code msg,
           err = newDiferenciaError code msg
           /\ headerWrites (diferenciaHandler CreateUrl Config r c).2
              = [code; http.StatusInternalServerError;
                 http.StatusPreconditionFailed]
           /\ bodyWrites (diferenciaHandler CreateUrl Config r c).2
              = [msg; Error err]
     end.
Proof.
  rewrite diferenciaHandler_writes.
  by_route r c; (split; [reflexivity|]); shapes; settle;
    try (eexists _, _; split; [reflexivity|]);
    split; reflexivity.
Qed.

End RunLaws.

(** * What a run does not depend on *)

Section Independence.

Context {C : Type} `{HttpClient : Client C}.
Context {N : Type} `{json : JsonPackage N}.
Variable CreateUrl : URL -> string -> string.
Variable Config : DiferenciaConfiguration.

Ltac unfold_run :=
  cbv [bind emit ret json_Detect json_Remove json_CompareDocuments
       exporter_ExportToFile compareResult];
  cbv beta iota zeta.

Ltac shape H :=
  match type of H with
  | getContent ?r ?url ?c = _ =>
      let X := fresh in
      pose proof (getContent_events r url c) as X;
      rewrite H in X; cbn [snd] in X;
      destruct X as [[-> [? [=]]] | ->]
  end.

(** X10. The path in [StoreResults] decides whether a run exports and
    nothing else: with any other path the verdict, the error, the state of
    the client and every event but the export are the same. *)
Theorem Diferencia_StoreResults_only_exports (path : string) (r : Request) (c : C) :
  (Diferencia CreateUrl (withStoreResults Config path) r c).1
  = (Diferencia CreateUrl Config r c).1
  /\ withoutExports (Diferencia CreateUrl (withStoreResults Config path) r c).2
     = withoutExports (Diferencia CreateUrl Config r c).2.
Proof.
  unfold Diferencia, IsStoreResultsSet, withStoreResults. unfold_run.
  cbn [AllowUnsafeOperations Primary Candidate Secondary NoiseDetection
       DifferenceMode StoreResults].
  destruct (negb (AllowUnsafeOperations Config)
            && negb (isSafeOperation (Method r))); [split; reflexivity|].
  destruct (getContent r (CreateUrl (RequestURL r) (Primary Config)) c)
    as [[[[[pb ps] ph] perr] c1] ev1] eqn:Hp.
  destruct perr as [perr|]; shape Hp; try (split; reflexivity).
  destruct (getContent r (CreateUrl (RequestURL r) (Candidate Config)) c1)
    as [[[[[cb cs] ch] cerr] c2] ev2] eqn:Hc.
  destruct cerr as [cerr|]; shape Hc; try (split; reflexivity).
  destruct (NoiseDetection Config).
  - destruct (getContent r (CreateUrl (RequestURL r) (Secondary Config)) c2)
      as [[[[[sb ss] sh] serr] c3] ev3] eqn:Hs.
    destruct serr as [serr|]; shape Hs; try (split; reflexivity).
    destruct (ps =? ss); [|split; reflexivity].
    destruct (Detect NoiseOperation_zero pb sb) as [n [derr|]];
      [split; reflexivity|].
    destruct (Remove n pb cb) as [[pwn cwn] rerr].
    destruct (ps =? cs);
      destruct (0 <? Z.of_nat (String.length path));
      destruct (0 <? Z.of_nat (String.length (StoreResults Config)));
      split; reflexivity.
  - destruct (ps =? cs);
      destruct (0 <? Z.of_nat (String.length path));
      destruct (0 <? Z.of_nat (String.length (StoreResults Config)));
      split; reflexivity.
Qed.

(** X11. The error that [NoiseOperation.Remove] returns is never looked
    at: whatever it is replaced with, the run is the same in its verdict,
    its error, the state of the client and its events. *)
Theorem Diferencia_ignores_Remove_error
    (e : N -> bytes -> bytes -> option error) (r : Request) (c : C) :
  @Diferencia C HttpClient N (withRemoveError json e) CreateUrl Config r c
  = Diferencia CreateUrl Config r c.
Proof.
  unfold Diferencia. unfold_run.
  cbn [NoiseOperation_zero Detect Remove CompareDocuments withRemoveError].
  destruct (negb (AllowUnsafeOperations Config)
            && negb (isSafeOperation (Method r))); [reflexivity|].
  destruct (getContent r (CreateUrl (RequestURL r) (Primary Config)) c)
    as [[[[[pb ps] ph] [perr|]] c1] ev1]; [reflexivity|].
  destruct (getContent r (CreateUrl (RequestURL r) (Candidate Config)) c1)
    as [[[[[cb cs] ch] [cerr|]] c2] ev2]; [reflexivity|].
  destruct (NoiseDetection Config); [|reflexivity].
  destruct (getContent r (CreateUrl (RequestURL r) (Secondary Config)) c2)
    as [[[[[sb ss] sh] [serr|]] c3] ev3]; [reflexivity|].
  destruct (ps =? ss); [|reflexivity].
  destruct (Detect NoiseOperation_zero pb sb) as [n [derr|]]; [reflexivity|].
  destruct (Remove n pb cb) as [[pwn cwn] rerr]. reflexivity.
Qed.

End Independence.

(** * The codec, from the string *)

(** X12. What [NewDifference] makes of a string prints back as that
    string; when it returns an error the value it returns with it is -1,
    which prints as "Unknown". *)
Theorem NewDifference_String_roundtrip (s : string) :
  match NewDifference s with
  | (d, None) => Difference_String d = s
  | (d, Some _) => d = -1 /\ Difference_String d = "Unknown"
  end.
Proof.
  unfold NewDifference.
  destruct (String.eqb_spec s "Strict") as [-> | _]; [reflexivity|].
  destruct (String.eqb_spec s "Subset") as [-> | _]; [reflexivity|].
  destruct (String.eqb_spec s "Schema") as [-> | _]; [reflexivity|].
  split; reflexivity.
Qed.

(** * The stub client replays what was recorded *)

Section StubFacts.

Variable ReadFile : string -> string + error.

Lemma fold_left_append {A : Type} (l acc : list A) :
  fold_left (fun acc v => acc ++ [v])%list l acc = (acc ++ l)%list.
Proof.
  revert acc. induction l as [|x l IH]; intros acc; cbn [fold_left].
  - rewrite app_nil_r. reflexivity.
  - rewrite IH, <- app_assoc. reflexivity.
Qed.

Lemma recordStatus_status (httpClient : Stub.StubHttpClient) (codes : list Z) :
  Stub.recordStatus httpClient codes
  = Stub.mkStub (Stub.header httpClient) (Stub.content httpClient) codes
                (Stub.index httpClient).
Proof. unfold Stub.recordStatus. rewrite fold_left_append. reflexivity. Qed.

Lemma recordContent_content (httpClient : Stub.StubHttpClient)
    (files payloads : list string) :
  Forall2 (fun file payload => ReadFile file = inl payload) files payloads ->
  Stub.recordContent ReadFile httpClient files
  = Some (Stub.mkStub (Stub.header httpClient) payloads (Stub.status httpClient)
                      (Stub.index httpClient)).
Proof.
  intros Hread. unfold Stub.recordContent.
  enough (Hfold : forall acc,
    fold_left (fun content v =>
                 match content, Stub.loadFromFile ReadFile v with
                 | Some content, Some payload => Some (content ++ [payload])%list
                 | _, _ => None
                 end) files (Some acc) = Some (acc ++ payloads)%list)
    by (rewrite Hfold; reflexivity).
  induction Hread as [|file payload files payloads Hfile _ IH]; intros acc.
  - cbn. rewrite app_nil_r. reflexivity.
  - cbn [fold_left]. unfold Stub.loadFromFile at 2. rewrite Hfile.
    rewrite IH, <- app_assoc. reflexivity.
Qed.

Lemma Stub_calls_from (contents : list string) (codes : list Z)
    (r : Request) (url : string) (n k : nat) :
  length codes = length contents ->
  (k + n)%nat = length contents ->
  Stub.calls n (Stub.mkStub None contents codes (Z.of_nat k)) r url
  = Some (zip_with Stub.response (drop k contents) (drop k codes),
          Stub.mkStub None contents codes (Z.of_nat (k + n))).
Proof.
  intros Hlen. revert k. induction n as [|n IH]; intros k Hk.
  - rewrite Nat.add_0_r in *. rewrite !drop_ge by lia. reflexivity.
  - assert (Hc : is_Some (contents !! k)) by (apply lookup_lt_is_Some; lia).
    assert (Hs : is_Some (codes !! k)) by (apply lookup_lt_is_Some; lia).
    destruct Hc as [text Hc], Hs as [code Hs].
    cbn [Stub.calls]. unfold Stub.MakeRequest, Stub.elem, index.
    cbn [Stub.content Stub.status Stub.header Stub.index].
    assert (Hneg : (Z.of_nat k <? 0) = false) by (apply Z.ltb_ge; lia).
    rewrite Hneg, Nat2Z.id, Hc, Hs.
    replace (Z.of_nat k + 1) with (Z.of_nat (S k)) by lia.
    rewrite (IH (S k)) by lia.
    rewrite (drop_S _ _ _ Hc), (drop_S _ _ _ Hs). cbn [zip_with].
    replace (S k + n)%nat with (k + S n)%nat by lia. reflexivity.
Qed.

(** X13. A fresh stub on which [recordContent] recorded files that can
    all be read, and [recordStatus] as many status codes, answers as many
    calls, whatever the request and the URL: call [i] with the content of
    file [i] as body, status code [i], no header and no error. The call
    after those panics. *)
Theorem Stub_replays_in_order
    (files payloads : list string) (codes : list Z) (r : Request) (url : string) :
  Forall2 (fun file payload => ReadFile file = inl payload) files payloads ->
  length codes = length files ->
  exists recorded played,
    Stub.recordContent ReadFile Stub.new files = Some recorded
    /\ Stub.calls (length files) (Stub.recordStatus recorded codes) r url
       = Some (zip_with Stub.response payloads codes, played)
    /\ Stub.MakeRequest played r url = None.
Proof.
  intros Hread Hlen.
  pose proof (Forall2_length _ _ _ Hread) as Hfiles.
  eexists _, _. split; [apply recordContent_content; exact Hread|].
  rewrite recordStatus_status. cbn [Stub.header Stub.content Stub.index Stub.new].
  split.
  - apply (Stub_calls_from payloads codes r url (length files) 0); lia.
  - unfold Stub.MakeRequest, Stub.elem, index. cbn [Stub.content Stub.index].
    assert (Hneg : (Z.of_nat (0 + length files) <? 0) = false)
      by (apply Z.ltb_ge; lia).
    rewrite Hneg, Nat2Z.id, (lookup_ge_None_2 payloads) by lia. reflexivity.
Qed.

End StubFacts.

(** * The laws on concrete runs *)

Section LawRuns.

Import Double.

Lemma Diferencia_error_is_DiferenciaError_run :
  (Diferencia CreateUrl (conf false false "") (request "GET")
              [respond 200 "[1,2]" ∅; unreachable]).1.1.1 = false
  /\ exists code msg,
       newDiferenciaError http.StatusServiceUnavailable
         "Error while connecting to Candidate site (http://candidate/now) with connection refused"
       = newDiferenciaError code msg
       /\ In code [http.StatusMethodNotAllowed; http.StatusServiceUnavailable;
                   http.StatusBadRequest].
Proof.
  apply (Diferencia_error_is_DiferenciaError CreateUrl (conf false false "")
           (request "GET") [respond 200 "[1,2]" ∅; unreachable]).
  reflexivity.
Defined.

Lemma Diferencia_method_not_allowed_iff_run :
  exists msg,
    (Diferencia CreateUrl (conf false false "") (request "DELETE") []).1.1.2
    = Some (newDiferenciaError http.StatusMethodNotAllowed msg).
Proof.
  apply (Diferencia_method_not_allowed_iff CreateUrl (conf false false "")
           (request "DELETE") []).
  split; [reflexivity|]. cbn [In Method request].
  intros [H | [H | [H | []]]]; discriminate H.
Defined.

Lemma Diferencia_requests_in_order_until_failure_run :
  requested (Diferencia CreateUrl (conf true false "") (request "GET")
                        [respond 200 "[1,2]" ∅; respond 200 "[1,2]" ∅;
                         respond 200 "[1,3]" ∅]).2
  = ["http://primary/now"; "http://candidate/now"; "http://secondary/now"]
  /\ requested ([] : list Event) = [].
Proof.
  split.
  - apply (Diferencia_requests_in_order_until_failure CreateUrl (conf true false "")
             (request "GET")
             [respond 200 "[1,2]" ∅; respond 200 "[1,2]" ∅; respond 200 "[1,3]" ∅]).
    reflexivity.
  - apply (proj2 (proj2 (Diferencia_requests_in_order_until_failure
                           CreateUrl (conf true false "") (request "GET")
                           [respond 200 "[1,2]" ∅; truncated 200 "[1,";
                            respond 200 "[1,3]" ∅]))
             [EvMakeRequest "http://primary/now" None; EvReadAll None;
              EvMakeRequest "http://candidate/now" None]
             (EvReadAll (Some (errorString "unexpected EOF"))) []);
      reflexivity.
Defined.

Lemma Diferencia_no_export_run :
  exported (Diferencia CreateUrl (conf false false "out.json") (request "GET")
                       [respond 200 "[1,2]" ∅; unreachable]).2 = [].
Proof.
  apply (Diferencia_no_export CreateUrl (conf false false "out.json")
           (request "GET") [respond 200 "[1,2]" ∅; unreachable]).
  left. discriminate.
Defined.

Lemma Diferencia_exports_once_run :
  exported (Diferencia CreateUrl (conf false false "out.json") (request "GET")
                       [respond 200 "[1,2]" ∅; respond 200 "[1,3]" ∅]).2
  = [exporter.CreateInteractions
       (exporter.CreateInteraction "http://primary/now"
          (list_byte_of_string "[1,2]") 200)
       exporter.zero
       (exporter.CreateInteraction "http://candidate/now"
          (list_byte_of_string "[1,3]") 200)
       "Strict" false].
Proof.
  refine (Diferencia_exports_once CreateUrl (conf false false "out.json")
            (request "GET") [respond 200 "[1,2]" ∅; respond 200 "[1,3]" ∅]
            [respond 200 "[1,3]" ∅] []
            (list_byte_of_string "[1,2]") 200 (list_byte_of_string "[1,3]") 200
            _ _ _ _);
    [discriminate
    | unfold answers; repeat eexists
    | unfold answers; repeat eexists
    | reflexivity].
Defined.

Lemma Diferencia_true_verdict_compared_run :
  (Diferencia CreateUrl (conf false false "") (request "GET")
              [respond 200 "[1,2]" ∅; respond 200 "[1,2]" ∅]).1.1.2 = None
  /\ exists cand prim,
       compared (Diferencia CreateUrl (conf false false "") (request "GET")
                            [respond 200 "[1,2]" ∅; respond 200 "[1,2]" ∅]).2
       = [(cand, prim, Difference_String (DifferenceMode (conf false false "")))]
       /\ CompareDocuments cand prim
            (Difference_String (DifferenceMode (conf false false ""))) = true.
Proof.
  apply (Diferencia_true_verdict_compared CreateUrl (conf false false "")
           (request "GET") [respond 200 "[1,2]" ∅; respond 200 "[1,2]" ∅]).
  reflexivity.
Defined.

Lemma Diferencia_plain_comparison_run :
  (Diferencia CreateUrl (conf false false "") (request "GET")
              [respond 200 "[1,2]" ∅; respond 200 "[1,3]" ∅]).1
  = ((if 200 =? 200
      then CompareDocuments (list_byte_of_string "[1,3]")
             (list_byte_of_string "[1,2]")
             (Difference_String (DifferenceMode (conf false false "")))
      else false, None), [])
  /\ existsb isNoiseCall
       (Diferencia CreateUrl (conf false false "") (request "GET")
                   [respond 200 "[1,2]" ∅; respond 200 "[1,3]" ∅]).2 = false.
Proof.
  refine (Diferencia_plain_comparison CreateUrl (conf false false "")
            (request "GET") [respond 200 "[1,2]" ∅; respond 200 "[1,3]" ∅]
            [respond 200 "[1,3]" ∅] []
            (list_byte_of_string "[1,2]") 200 (list_byte_of_string "[1,3]") 200
            _ _ _ _);
    [reflexivity | reflexivity
    | unfold answers; repeat eexists
    | unfold answers; repeat eexists].
Defined.

Lemma Diferencia_denoised_comparison_run :
  (Diferencia CreateUrl (conf true false "") (request "GET")
              [respond 200 "[1,2]" ∅; respond 200 "[1,2]" ∅;
               respond 200 "[1,3]" ∅]).1
  = ((if 200 =? 200
      then CompareDocuments (list_byte_of_string "[1,2]")
             (list_byte_of_string "[1,2]")
             (Difference_String (DifferenceMode (conf true false "")))
      else false, None), [])
  /\ List.filter (fun e => isNoiseCall e || isCompareDocuments e)
       (Diferencia CreateUrl (conf true false "") (request "GET")
                   [respond 200 "[1,2]" ∅; respond 200 "[1,2]" ∅;
                    respond 200 "[1,3]" ∅]).2
     = ([EvDetect (list_byte_of_string "[1,2]") (list_byte_of_string "[1,3]") None;
         EvRemove (list_byte_of_string "[1,2]") (list_byte_of_string "[1,2]")]
          ++ (if 200 =? 200
              then [EvCompareDocuments (list_byte_of_string "[1,2]")
                      (list_byte_of_string "[1,2]")
                      (Difference_String (DifferenceMode (conf true false "")))]
              else []))%list.
Proof.
  refine (Diferencia_denoised_comparison CreateUrl (conf true false "")
            (request "GET")
            [respond 200 "[1,2]" ∅; respond 200 "[1,2]" ∅; respond 200 "[1,3]" ∅]
            [respond 200 "[1,2]" ∅; respond 200 "[1,3]" ∅]
            [respond 200 "[1,3]" ∅] []
            (list_byte_of_string "[1,2]") 200 (list_byte_of_string "[1,2]") 200
            (list_byte_of_string "[1,3]") tt
            (list_byte_of_string "[1,2]") (list_byte_of_string "[1,2]") None
            _ _ _ _ _ _ _);
    [reflexivity | reflexivity
    | unfold answers; repeat eexists
    | unfold answers; repeat eexists
    | unfold answers; repeat eexists
    | reflexivity | reflexivity].
Defined.

Lemma Stub_replays_in_order_run :
  exists recorded played,
    Stub.recordContent fixtures Stub.new
      ["test_fixtures/document-a.json"; "test_fixtures/document-a.json"]
    = Some recorded
    /\ Stub.calls 2 (Stub.recordStatus recorded [200; 201]) (request "GET")
                  "http://primary/now"
       = Some ([Stub.response "[1,2]" 200; Stub.response "[1,2]" 201], played)
    /\ Stub.MakeRequest played (request "GET") "http://primary/now" = None.
Proof.
  apply (Stub_replays_in_order fixtures
           ["test_fixtures/document-a.json"; "test_fixtures/document-a.json"]
           ["[1,2]"; "[1,2]"] [200; 201]).
  - repeat constructor.
  - reflexivity.
Defined.

End LawRuns.

(** * The comparison of headers *)

Section HeaderDiffFacts.

Import HeaderDiff.









End HeaderDiffFacts.

Section HeaderDiffRuns.

Import HeaderDiff.


End HeaderDiffRuns.
